(** * cvelib: the IDR client ([cvelib/idr.py])

  A shallow embedding of the [Idr] client class and of the parts of the
  Python runtime it leans on, followed by the properties of the client
  that were checked against it.

  Layout:
  - [PyStr]    : helpers on strings (find, split, join, case);
  - [Py]       : decoded JSON values, dictionaries, [str()] formatting,
                 exceptions and datetimes;
  - [UrlParse] : [urllib.parse.urljoin] and what it is built from;
  - [Http]     : requests, responses, the transport and the monad of
                 computations that use it;
  - the client itself: [Idr_init], [http_request], [get], [post],
    [get_paged] (as a generator), [reserve], [list_cves], ...;
  - what is needed to state the properties: the request sent, runs of
    pages, and [Sample] clients and servers;
  - the properties, numbered C1 to C10 as in the list of claims. *)

From Stdlib Require Import List String Ascii ZArith Bool Lia Arith.
From Stdlib Require Import Numbers.DecimalString.
Import ListNotations.

Local Open Scope string_scope.
Local Open Scope list_scope.
Local Open Scope Z_scope.

Notation "a +++ b" := (String.append a b) (at level 60, right associativity).

(* ================================================================== *)
(** ** Strings *)

Module PyStr.

(** The double quote character. *)
Definition dquote : ascii := "034".

(** [s] between double quotes. *)
Definition quoted (s : string) : string :=
  String dquote (s +++ String dquote EmptyString).

(** [c in s] for a one-character [c]. *)
Fixpoint contains (c : ascii) (s : string) : bool :=
  match s with
  | EmptyString => false
  | String a s' => if Ascii.eqb a c then true else contains c s'
  end.

Fixpoint forallb (p : ascii -> bool) (s : string) : bool :=
  match s with
  | EmptyString => true
  | String a s' => p a && forallb p s'
  end.

(** [s.split(c, 1)] when [c] occurs in [s]: the text before the first
    [c] and the text after it.  [None] when [c] does not occur, which is
    Python's [s.find(c) < 0]. *)
Fixpoint split_once (c : ascii) (s : string) : option (string * string) :=
  match s with
  | EmptyString => None
  | String a s' =>
      if Ascii.eqb a c then Some (EmptyString, s')
      else match split_once c s' with
           | Some (l, r) => Some (String a l, r)
           | None => None
           end
  end.

(** The longest prefix of [s] whose characters all fail [stop], and the
    rest of [s] (which is empty or starts with a [stop] character). *)
Fixpoint span_until (stop : ascii -> bool) (s : string) : string * string :=
  match s with
  | EmptyString => (EmptyString, EmptyString)
  | String a s' =>
      if stop a then (EmptyString, s)
      else let (l, r) := span_until stop s' in (String a l, r)
  end.

(** [s.split(c)]: never empty, [c] itself removed. *)
Fixpoint split (c : ascii) (s : string) : list string :=
  match s with
  | EmptyString => [EmptyString]
  | String a s' =>
      if Ascii.eqb a c then EmptyString :: split c s'
      else match split c s' with
           | x :: xs => String a x :: xs
           | [] => [String a EmptyString]
           end
  end.

(** [sep.join(l)]. *)
Fixpoint join (sep : string) (l : list string) : string :=
  match l with
  | [] => EmptyString
  | [x] => x
  | x :: xs => x +++ sep +++ join sep xs
  end.

Definition upper_char (a : ascii) : ascii :=
  let n := nat_of_ascii a in
  if (Nat.leb 97 n && Nat.leb n 122)%bool then ascii_of_nat (n - 32) else a.

Definition lower_char (a : ascii) : ascii :=
  let n := nat_of_ascii a in
  if (Nat.leb 65 n && Nat.leb n 90)%bool then ascii_of_nat (n + 32) else a.

Fixpoint map (f : ascii -> ascii) (s : string) : string :=
  match s with
  | EmptyString => EmptyString
  | String a s' => String (f a) (map f s')
  end.

(** [s.upper()] and [s.lower()] for text whose letters are ASCII (a
    state name, a URL scheme). *)
Definition upper : string -> string := map upper_char.
Definition lower : string -> string := map lower_char.

Definition is_digit (a : ascii) : bool :=
  let n := nat_of_ascii a in (Nat.leb 48 n && Nat.leb n 57)%bool.

Definition is_alpha (a : ascii) : bool :=
  let n := nat_of_ascii a in
  ((Nat.leb 65 n && Nat.leb n 90) || (Nat.leb 97 n && Nat.leb n 122))%bool.

(** [s.lstrip(chars)], with [chars] given as a test. *)
Fixpoint lstrip (p : ascii -> bool) (s : string) : string :=
  match s with
  | EmptyString => EmptyString
  | String a s' => if p a then lstrip p s' else s
  end.

Fixpoint rev (s : string) : string :=
  match s with
  | EmptyString => EmptyString
  | String a s' => rev s' +++ String a EmptyString
  end.

Definition rstrip (p : ascii -> bool) (s : string) : string :=
  rev (lstrip p (rev s)).

(** [s.strip(chars)] *)
Definition strip (p : ascii -> bool) (s : string) : string :=
  rstrip p (lstrip p s).

(** [s] without the characters that pass [p] (a chain of
    [s.replace(c, "")]). *)
Fixpoint remove (p : ascii -> bool) (s : string) : string :=
  match s with
  | EmptyString => EmptyString
  | String a s' => if p a then remove p s' else String a (remove p s')
  end.

(** [s.startswith(p)], also for tests such as [s[:2] == "//"]. *)
Fixpoint starts_with (p s : string) : bool :=
  match p with
  | EmptyString => true
  | String a p' =>
      match s with
      | EmptyString => false
      | String b s' => Ascii.eqb a b && starts_with p' s'
      end
  end.

Definition is_empty (s : string) : bool :=
  match s with EmptyString => true | _ => false end.

(** Decimal rendering of an integer, as [str(n)] gives it. *)
Definition of_Z (z : Z) : string := NilZero.string_of_int (Z.to_int z).

(** [z] in decimal, left-padded with zeros to [width] digits
    ([f"{z:0{width}d}"] for a non-negative [z]). *)
Fixpoint zeros (n : nat) : string :=
  match n with O => EmptyString | S n' => String "0" (zeros n') end.

Definition pad0 (width : nat) (z : Z) : string :=
  let d := of_Z z in
  zeros (width - String.length d) +++ d.

End PyStr.

(* ================================================================== *)
(** ** Python values *)

Module Py.

(** What [response.json()] can return, and what the client passes as
    request parameters: [None], booleans, integers, floats, strings,
    lists, and dictionaries with string keys.  A dictionary is an
    association list in insertion order with no key repeated (iterating a
    [dict] gives its keys in insertion order, and the order of [params]
    is the order of the query string).  A float is carried as its
    [repr()]: the client never computes with one. *)
#[warnings="-register-all"]
Inductive pyval : Type :=
| PNone
| PBool (b : bool)
| PInt (z : Z)
| PFloat (repr : string)
| PStr (s : string)
| PList (l : list pyval)
| PDict (d : list (string * pyval)).

Definition dict := list (string * pyval).

(** [d.get(k)]: [None] for Python's [None] result on a missing key. *)
Fixpoint dict_get {A : Type} (d : list (string * A)) (k : string) : option A :=
  match d with
  | [] => None
  | (k', v) :: d' => if String.eqb k' k then Some v else dict_get d' k
  end.

(** [d[k] = v]: an existing key keeps its place, a new one goes last. *)
Fixpoint dict_set {A : Type} (d : list (string * A)) (k : string) (v : A)
  : list (string * A) :=
  match d with
  | [] => [(k, v)]
  | (k', v') :: d' =>
      if String.eqb k' k then (k, v) :: d' else (k', v') :: dict_set d' k v
  end.

Definition dict_keys {A : Type} (d : list (string * A)) : list string :=
  List.map fst d.

(** [k in d]. *)
Definition dict_mem {A : Type} (d : list (string * A)) (k : string) : bool :=
  match dict_get d k with Some _ => true | None => false end.

(** Truth value of an object, as [if x:] and [x or y] test it. *)
Definition truthy (v : pyval) : bool :=
  match v with
  | PNone => false
  | PBool b => b
  | PInt z => negb (z =? 0)
  | PFloat r => negb (String.eqb r "0.0" || String.eqb r "-0.0")
  | PStr s => negb (PyStr.is_empty s)
  | PList l => match l with [] => false | _ => true end
  | PDict d => match d with [] => false | _ => true end
  end.

(** *** [repr()] and [str()] *)

Definition hex_digit (n : nat) : ascii :=
  ascii_of_nat (if Nat.ltb n 10 then 48 + n else 87 + n).

(** [\xhh] *)
Definition hex_escape (a : ascii) : string :=
  let n := nat_of_ascii a in
  String "\" (String "x" (String (hex_digit (Nat.div n 16))
                            (String (hex_digit (Nat.modulo n 16)) EmptyString))).

(** The quote [repr] wraps a string in: a double quote when the text has
    a single quote and no double quote, a single quote otherwise. *)
Definition repr_quote (s : string) : ascii :=
  if (PyStr.contains "'" s && negb (PyStr.contains PyStr.dquote s))%bool
  then PyStr.dquote else "'"%char.

(** Characters [repr] of a [str] writes as they are.  A character of the
    model is a code point below 256. *)
Definition str_printable (a : ascii) : bool :=
  let n := nat_of_ascii a in
  ((Nat.leb 32 n && Nat.ltb n 127) || (Nat.leb 161 n && negb (Nat.eqb n 173)))%bool.

(** Bytes [repr] of a [bytes] writes as they are. *)
Definition bytes_printable (a : ascii) : bool :=
  let n := nat_of_ascii a in (Nat.leb 32 n && Nat.ltb n 127)%bool.

Definition repr_char (printable : ascii -> bool) (q a : ascii) : string :=
  if (Ascii.eqb a q || Ascii.eqb a "\")%bool then String "\" (String a EmptyString)
  else if Ascii.eqb a "009" then "\t"
  else if Ascii.eqb a "010" then "\n"
  else if Ascii.eqb a "013" then "\r"
  else if printable a then String a EmptyString
  else hex_escape a.

Fixpoint repr_body (printable : ascii -> bool) (q : ascii) (s : string) : string :=
  match s with
  | EmptyString => EmptyString
  | String a s' => repr_char printable q a +++ repr_body printable q s'
  end.

(** [repr(s)] for a [str]. *)
Definition repr_str (s : string) : string :=
  let q := repr_quote s in
  String q (repr_body str_printable q s +++ String q EmptyString).

(** [repr(b)] for a [bytes]. *)
Definition repr_bytes (b : string) : string :=
  let q := repr_quote b in
  String "b" (String q (repr_body bytes_printable q b +++ String q EmptyString)).

(** [repr(v)]; [str(v)] is the same for everything but a [str]. *)
Fixpoint repr (v : pyval) : string :=
  match v with
  | PNone => "None"
  | PBool true => "True"
  | PBool false => "False"
  | PInt z => PyStr.of_Z z
  | PFloat r => r
  | PStr s => repr_str s
  | PList l => "[" +++ PyStr.join ", " (List.map repr l) +++ "]"
  | PDict d =>
      "{" +++ PyStr.join ", "
                (List.map (fun kv => repr_str (fst kv) +++ ": " +++ repr (snd kv)) d)
          +++ "}"
  end.

(** [str(v)], which is what an f-string field [{v}] inserts. *)
Definition str (v : pyval) : string :=
  match v with
  | PStr s => s
  | _ => repr v
  end.

(** *** Subscript and iteration *)

(** Exceptions the client can meet.  [IdrException] is the class the
    module declares, and its message is the one the client builds;
    [RequestsError] stands for what [requests.request] raises by itself,
    with the class it raised.  The message of an exception of the Python
    runtime or of a library is kept short. *)
Inductive requests_error : Type :=
| ConnectionError | ConnectTimeout | ReadTimeout | TooManyRedirects
| MissingSchema | InvalidURL.

Inductive exn : Type :=
| IdrException (msg : string)
| ValueError (msg : string)
| TypeError (msg : string)
| KeyError (key : string)
| AttributeError (msg : string)
| RequestsError (cls : requests_error) (msg : string).

Inductive result (A : Type) : Type :=
| Ok (a : A)
| Raise (e : exn).
Arguments Ok {A} a.
Arguments Raise {A} e.

Definition is_IdrException (e : exn) : bool :=
  match e with IdrException _ => true | _ => false end.

(** [type(v).__name__] *)
Definition type_name (v : pyval) : string :=
  match v with
  | PNone => "NoneType" | PBool _ => "bool" | PInt _ => "int"
  | PFloat _ => "float" | PStr _ => "str" | PList _ => "list"
  | PDict _ => "dict"
  end.

(** [v[k]] for a string [k]: only a dictionary can be indexed by a
    string, and a missing key is a [KeyError]. *)
Definition getitem (v : pyval) (k : string) : result pyval :=
  match v with
  | PDict d =>
      match dict_get d k with
      | Some x => Ok x
      | None => Raise (KeyError k)
      end
  | PStr _ => Raise (TypeError "string indices must be integers")
  | PList _ => Raise (TypeError "list indices must be integers or slices, not str")
  | _ => Raise (TypeError ("'" +++ type_name v +++ "' object is not subscriptable"))
  end.

(** [v.get(k)]: a method of dictionaries only. *)
Definition get_method (v : pyval) (k : string) : result pyval :=
  match v with
  | PDict d =>
      match dict_get d k with
      | Some x => Ok x
      | None => Ok PNone
      end
  | _ => Raise (AttributeError ("'" +++ type_name v +++ "' object has no attribute 'get'"))
  end.

Fixpoint chars (s : string) : list pyval :=
  match s with
  | EmptyString => []
  | String a s' => PStr (String a EmptyString) :: chars s'
  end.

(** What [yield from v] goes through: the elements of a list, the keys of
    a dictionary, the characters of a string; nothing else is iterable. *)
Definition iter (v : pyval) : result (list pyval) :=
  match v with
  | PList l => Ok l
  | PDict d => Ok (List.map PStr (dict_keys d))
  | PStr s => Ok (chars s)
  | _ => Raise (TypeError ("'" +++ type_name v +++ "' object is not iterable"))
  end.

(** *** Datetimes *)

(** A [datetime.datetime]: the fields, and the UTC offset in seconds
    of an aware value ([None] for a naive one). *)
Record datetime : Type := {
  dt_year : Z; dt_month : Z; dt_day : Z;
  dt_hour : Z; dt_minute : Z; dt_second : Z; dt_microsecond : Z;
  dt_utcoffset : option Z
}.

Definition iso_offset (off : Z) : string :=
  let a := Z.abs off in
  let hh := a / 3600 in
  let mm := (a mod 3600) / 60 in
  let ss := a mod 60 in
  (if off <? 0 then "-" else "+") +++ PyStr.pad0 2 hh +++ ":" +++ PyStr.pad0 2 mm
  +++ (if ss =? 0 then "" else ":" +++ PyStr.pad0 2 ss).

(** [d.isoformat()]: [YYYY-MM-DDTHH:MM:SS], then [.ffffff] when the
    microseconds are not zero, then the offset of an aware value. *)
Definition isoformat (d : datetime) : string :=
  PyStr.pad0 4 (dt_year d) +++ "-" +++ PyStr.pad0 2 (dt_month d) +++ "-"
  +++ PyStr.pad0 2 (dt_day d) +++ "T" +++ PyStr.pad0 2 (dt_hour d) +++ ":"
  +++ PyStr.pad0 2 (dt_minute d) +++ ":" +++ PyStr.pad0 2 (dt_second d)
  +++ (if dt_microsecond d =? 0 then "" else "." +++ PyStr.pad0 6 (dt_microsecond d))
  +++ match dt_utcoffset d with
      | None => ""
      | Some off => iso_offset off
      end.

End Py.

(* ================================================================== *)
(** ** [urllib.parse] *)

(** [urljoin] and the functions under it, following CPython's
    [Lib/urllib/parse.py] (release 3.11) on [str] arguments with
    [allow_fragments=True].  Left out are the parse cache and the two
    checks of a host that can only reject it: [_check_bracketed_netloc]
    (a bracketed host has to be an IP literal) and [_checknetloc] (the
    NFKC form of a non-ASCII host must not bring in a delimiter).  Both
    raise [ValueError] or do nothing, so a URL the model returns is the
    URL Python returns whenever Python returns one. *)
Module UrlParse.
Import Py.

Definition uses_relative : list string :=
  [""; "ftp"; "http"; "gopher"; "nntp"; "imap"; "wais"; "file"; "https";
   "shttp"; "mms"; "prospero"; "rtsp"; "rtspu"; "sftp"; "svn"; "svn+ssh";
   "ws"; "wss"].

Definition uses_netloc : list string :=
  [""; "ftp"; "http"; "gopher"; "nntp"; "telnet"; "imap"; "wais"; "file";
   "mms"; "https"; "shttp"; "snews"; "prospero"; "rtsp"; "rtspu"; "rsync";
   "svn"; "svn+ssh"; "sftp"; "nfs"; "git"; "git+ssh"; "ws"; "wss"].

Definition uses_params : list string :=
  [""; "ftp"; "hdl"; "prospero"; "http"; "imap"; "https"; "shttp"; "rtsp";
   "rtspu"; "sip"; "sips"; "mms"; "sftp"; "tel"].

Definition mem (s : string) (l : list string) : bool :=
  List.existsb (String.eqb s) l.

Definition is_scheme_char (a : ascii) : bool :=
  (PyStr.is_alpha a || PyStr.is_digit a
   || Ascii.eqb a "+" || Ascii.eqb a "-" || Ascii.eqb a ".")%bool.

Definition is_netloc_delim (a : ascii) : bool :=
  (Ascii.eqb a "/" || Ascii.eqb a "?" || Ascii.eqb a "#")%bool.

Record SplitResult : Type := {
  sr_scheme : string; sr_netloc : string; sr_path : string;
  sr_query : string; sr_fragment : string
}.

Record ParseResult : Type := {
  pr_scheme : string; pr_netloc : string; pr_path : string;
  pr_params : string; pr_query : string; pr_fragment : string
}.

(** [url[0].isascii() and url[0].isalpha()] *)
Definition starts_alpha (url : string) : bool :=
  match url with
  | String a _ => PyStr.is_alpha a
  | EmptyString => false
  end.

(** The scheme of [url] and what follows its colon, or the default
    scheme and [url] itself when [url] does not start with one: the text
    before the first colon is a scheme when it is not empty, starts with a
    letter and is made of scheme characters. *)
Definition split_scheme (url scheme : string) : string * string :=
  match PyStr.split_once ":" url with
  | Some (pre, rest) =>
      if (negb (PyStr.is_empty pre) && starts_alpha url
          && PyStr.forallb is_scheme_char pre)%bool
      then (PyStr.lower pre, rest)
      else (scheme, url)
  | None => (scheme, url)
  end.

(** [_splitnetloc(url, 2)] for a [url] that starts with [//]. *)
Definition splitnetloc2 (url : string) : string * string :=
  match url with
  | String _ (String _ rest) => PyStr.span_until is_netloc_delim rest
  | _ => (EmptyString, EmptyString)
  end.

Definition bad_brackets (netloc : string) : bool :=
  ((PyStr.contains "[" netloc && negb (PyStr.contains "]" netloc))
   || (PyStr.contains "]" netloc && negb (PyStr.contains "[" netloc)))%bool.

(** [_WHATWG_C0_CONTROL_OR_SPACE]: the code points up to the space. *)
Definition is_c0_or_space (a : ascii) : bool := Nat.leb (nat_of_ascii a) 32.

(** [_UNSAFE_URL_BYTES_TO_REMOVE]: tab, carriage return, line feed. *)
Definition is_unsafe (a : ascii) : bool :=
  (Ascii.eqb a "009" || Ascii.eqb a "013" || Ascii.eqb a "010")%bool.

(** What [urlsplit] does to [url] before it parses: leading control
    characters and spaces go, and tabs and line ends go wherever they
    are. *)
Definition clean_url (url : string) : string :=
  PyStr.remove is_unsafe (PyStr.lstrip is_c0_or_space url).

(** The same for the default scheme, stripped at both ends. *)
Definition clean_scheme (scheme : string) : string :=
  PyStr.remove is_unsafe (PyStr.strip is_c0_or_space scheme).

(** [urlsplit(url, scheme)] *)
Definition urlsplit (url scheme : string) : result SplitResult :=
  let url := clean_url url in
  let scheme := clean_scheme scheme in
  let (scheme, url) := split_scheme url scheme in
  let (netloc, url) :=
    if PyStr.starts_with "//" url then splitnetloc2 url else (EmptyString, url) in
  if bad_brackets netloc then Raise (ValueError "Invalid IPv6 URL")
  else
    let (url, fragment) :=
      match PyStr.split_once "#" url with
      | Some (u, f) => (u, f)
      | None => (url, EmptyString)
      end in
    let (url, query) :=
      match PyStr.split_once "?" url with
      | Some (u, q) => (u, q)
      | None => (url, EmptyString)
      end in
    Ok {| sr_scheme := scheme; sr_netloc := netloc; sr_path := url;
          sr_query := query; sr_fragment := fragment |}.

(** [s] cut after its last [c]: the part up to and including that [c],
    and the part after it.  [None] when [c] does not occur. *)
Fixpoint rsplit_keep (c : ascii) (s : string) : option (string * string) :=
  match s with
  | EmptyString => None
  | String a s' =>
      match rsplit_keep c s' with
      | Some (l, r) => Some (String a l, r)
      | None =>
          if Ascii.eqb a c then Some (String a EmptyString, s') else None
      end
  end.

(** [_splitparams(url)], called when [';' in url]. *)
Definition splitparams (url : string) : string * string :=
  match rsplit_keep "/" url with
  | Some (dir, last) =>
      match PyStr.split_once ";" last with
      | Some (l, p) => (dir +++ l, p)
      | None => (url, EmptyString)
      end
  | None =>
      match PyStr.split_once ";" url with
      | Some (l, p) => (l, p)
      | None => (url, EmptyString)
      end
  end.

(** [urlparse(url, scheme)] *)
Definition urlparse (url scheme : string) : result ParseResult :=
  match urlsplit url scheme with
  | Raise e => Raise e
  | Ok sr =>
      let (path, params) :=
        if (mem (sr_scheme sr) uses_params && PyStr.contains ";" (sr_path sr))%bool
        then splitparams (sr_path sr)
        else (sr_path sr, EmptyString) in
      Ok {| pr_scheme := sr_scheme sr; pr_netloc := sr_netloc sr;
            pr_path := path; pr_params := params;
            pr_query := sr_query sr; pr_fragment := sr_fragment sr |}
  end.

(** [urlunsplit((scheme, netloc, url, query, fragment))] *)
Definition urlunsplit (scheme netloc url query fragment : string) : string :=
  let url :=
    if (negb (PyStr.is_empty netloc)
        || (negb (PyStr.is_empty scheme) && mem scheme uses_netloc
            && negb (PyStr.starts_with "//" url)))%bool
    then
      let url :=
        if (negb (PyStr.is_empty url) && negb (PyStr.starts_with "/" url))%bool
        then "/" +++ url else url in
      "//" +++ netloc +++ url
    else url in
  let url := if PyStr.is_empty scheme then url else scheme +++ ":" +++ url in
  let url := if PyStr.is_empty query then url else url +++ "?" +++ query in
  if PyStr.is_empty fragment then url else url +++ "#" +++ fragment.

(** [urlunparse((scheme, netloc, url, params, query, fragment))] *)
Definition urlunparse (scheme netloc url params query fragment : string) : string :=
  let url := if PyStr.is_empty params then url else url +++ ";" +++ params in
  urlunsplit scheme netloc url query fragment.

(** [segments[1:-1] = filter(None, segments[1:-1])] *)
Definition filter_middle (segments : list string) : list string :=
  match segments with
  | first :: (_ :: _) as tl =>
      first :: List.filter (fun s => negb (PyStr.is_empty s)) (List.removelast tl)
            ++ [List.last tl EmptyString]
  | _ => segments
  end.

(** The loop over [segments]: [..] pops, [.] is skipped, anything else is
    appended. *)
Definition resolve_step (resolved_path : list string) (seg : string) : list string :=
  if String.eqb seg ".." then List.removelast resolved_path
  else if String.eqb seg "." then resolved_path
  else resolved_path ++ [seg].

Definition resolve (segments : list string) : list string :=
  let resolved_path := List.fold_left resolve_step segments [] in
  let lastseg := List.last segments EmptyString in
  if (String.eqb lastseg "." || String.eqb lastseg "..")%bool
  then resolved_path ++ [EmptyString] else resolved_path.

(** The path of the joined URL when the reference has a path. *)
Definition join_path (bpath path : string) : string :=
  let base_parts := PyStr.split "/" bpath in
  let base_parts :=
    if PyStr.is_empty (List.last base_parts EmptyString) then base_parts
    else List.removelast base_parts in
  let segments :=
    if PyStr.starts_with "/" path then PyStr.split "/" path
    else filter_middle (base_parts ++ PyStr.split "/" path) in
  let joined := PyStr.join "/" (resolve segments) in
  if PyStr.is_empty joined then "/" else joined.

(** [urljoin(base, url)] *)
Definition urljoin (base url : string) : result string :=
  if PyStr.is_empty base then Ok url
  else if PyStr.is_empty url then Ok base
  else
    match urlparse base EmptyString with
    | Raise e => Raise e
    | Ok b =>
        match urlparse url (pr_scheme b) with
        | Raise e => Raise e
        | Ok u =>
            let scheme := pr_scheme u in
            if (negb (String.eqb scheme (pr_scheme b))
                || negb (mem scheme uses_relative))%bool
            then Ok url
            else if (mem scheme uses_netloc && negb (PyStr.is_empty (pr_netloc u)))%bool
            then Ok (urlunparse scheme (pr_netloc u) (pr_path u) (pr_params u)
                                (pr_query u) (pr_fragment u))
            else
              let netloc :=
                if mem scheme uses_netloc then pr_netloc b else pr_netloc u in
              if (PyStr.is_empty (pr_path u) && PyStr.is_empty (pr_params u))%bool
              then
                let query :=
                  if PyStr.is_empty (pr_query u) then pr_query b else pr_query u in
                Ok (urlunparse scheme netloc (pr_path b) (pr_params b) query
                               (pr_fragment u))
              else
                Ok (urlunparse scheme netloc (join_path (pr_path b) (pr_path u))
                               (pr_params u) (pr_query u) (pr_fragment u))
    end
    end.

(** The network location (host and port) a URL names. *)
Definition url_netloc (url : string) : result string :=
  match urlsplit url EmptyString with
  | Ok sr => Ok (sr_netloc sr)
  | Raise e => Raise e
  end.

End UrlParse.


(* ================================================================== *)
(** ** Requests, responses and the transport *)

Module Http.
Import Py.

(** The arguments of one [requests.request(...)] call.  [rq_kwargs] holds
    the options passed on by keyword ([params], [json], [data], ...) in
    the order they were given. *)
Record Request : Type := {
  rq_method : string;
  rq_url : string;
  rq_timeout : Z;
  rq_headers : list (string * string);
  rq_kwargs : dict
}.

(** What the client reads of a [requests.Response].  [json] is the
    outcome of [response.json()]: the decoded body, or [None] when
    decoding raises [ValueError]. *)
Record Response : Type := {
  status_code : Z;
  reason : string;
  resp_url : string;
  content : string;
  json : option pyval
}.

(** The requests issued so far, oldest first. *)
Definition World : Type := list Request.

(** The network as the client sees it: what [requests.request] gives for
    a request, given everything requested before.  It answers with a
    response or raises ([RequestsError] for a timeout or a refused
    connection, or whatever else the library raises). *)
Definition Network : Type := World -> Request -> result Response.

(** A [requests.exceptions.RequestException]: its [str()], and its
    [response] attribute. *)
Record RequestException : Type := {
  exc_str : string;
  exc_response : option Response
}.

(** [response.raise_for_status()]: [Some exc] when it raises.  It raises
    an [HTTPError] that carries the response for a status from 400 to
    599, and returns for any other status. *)
Definition raise_for_status (r : Response) : option RequestException :=
  let http_error_msg :=
    if ((400 <=? status_code r) && (status_code r <? 500))%bool
    then PyStr.of_Z (status_code r) +++ " Client Error: " +++ reason r
         +++ " for url: " +++ resp_url r
    else if ((500 <=? status_code r) && (status_code r <? 600))%bool
    then PyStr.of_Z (status_code r) +++ " Server Error: " +++ reason r
         +++ " for url: " +++ resp_url r
    else "" in
  if PyStr.is_empty http_error_msg then None
  else Some {| exc_str := http_error_msg; exc_response := Some r |}.

(** Computations that talk to the network: they read and extend the log
    of requests, and return or raise. *)
Definition M (A : Type) : Type := World -> result A * World.

Definition ret {A : Type} (a : A) : M A := fun w => (Ok a, w).

Definition raise {A : Type} (e : exn) : M A := fun w => (Raise e, w).

Definition bind {A B : Type} (m : M A) (k : A -> M B) : M B :=
  fun w =>
    match m w with
    | (Ok a, w') => k a w'
    | (Raise e, w') => (Raise e, w')
    end.

(** Lifting of a computation that does not touch the network. *)
Definition lift {A : Type} (r : result A) : M A := fun w => (r, w).

(** A call [f(a, ..., **kwargs)] is refused with a [TypeError] when
    [kwargs] names an argument the call already gives. *)
Definition check_kwargs (given : list string) (kwargs : dict) : result unit :=
  match List.find (fun k => dict_mem kwargs k) given with
  | Some k => Raise (TypeError ("got multiple values for argument '" +++ k +++ "'"))
  | None => Ok tt
  end.

(** None of the names [given] is a key of [kwargs]. *)
Definition kwargs_free (given : list string) (kwargs : dict) : bool :=
  List.forallb (fun k => negb (dict_mem kwargs k)) given.

End Http.

Declare Scope py_scope.
Notation "x <- m ;; k" := (Http.bind m (fun x => k))
  (at level 61, m at next level, right associativity) : py_scope.
Notation "m ;;; k" := (Http.bind m (fun _ => k))
  (at level 61, right associativity) : py_scope.
Local Open Scope py_scope.

(* ================================================================== *)
(** ** The client *)

Import Py UrlParse Http.

(** [Idr.ENVS] *)
Definition ENVS : list (string * string) :=
  [("prod", "https://cveawg.mitre.org/api/");
   ("dev", "https://cveawg-dev.mitre.org/api/")].

(** An [Idr] instance: its attributes. *)
Record Idr : Type := {
  username : string;
  org : string;
  api_key : string;
  url : string;
  raise_exc : bool
}.

(** [x or y] on values that are [None] or a string. *)
Definition or_str (x y : option string) : option string :=
  match x with
  | Some s => if PyStr.is_empty s then y else x
  | None => y
  end.

(** [Idr.__init__(self, username, org, api_key, env, url, raise_exc)]:
    the instance, or the exception the constructor raises.  [url] is
    [None] or a string. *)
Definition Idr_init (username org api_key env : string) (url : option string)
  (raise_exc : bool) : result Idr :=
  let self_url := or_str url (dict_get ENVS env) in
  match self_url with
  | Some u =>
      if PyStr.is_empty u then Raise (ValueError "Missing URL for IDR")
      else Ok {| username := username; org := org; api_key := api_key;
                 url := u; raise_exc := raise_exc |}
  | None => Raise (ValueError "Missing URL for IDR")
  end.

(** [Idr(username, org, api_key)] with the defaults [env="prod"],
    [url=None], [raise_exc=True]. *)
Definition Idr_default (username org api_key : string) : result Idr :=
  Idr_init username org api_key "prod" None true.

Section Client.

(** The network the client runs against. *)
Variable net : Network.

(** [requests.request(method=..., url=..., timeout=..., headers=...,
    **kwargs)]: one request goes out and is logged. *)
Definition requests_request (method url : string) (timeout : Z)
  (headers : list (string * string)) (kwargs : dict) : M Response :=
  fun w =>
    let req := {| rq_method := method; rq_url := url; rq_timeout := timeout;
                  rq_headers := headers; rq_kwargs := kwargs |} in
    (net w req, w ++ [req]).

(** [Idr.http_request(self, method, path, **kwargs)] *)
Definition http_request (self : Idr) (method path : string) (kwargs : dict)
  : M Response :=
  lift (check_kwargs ["self"; "method"; "path"] kwargs) ;;;
  url <- lift (urljoin (url self) path) ;;
  let headers := [("CVE-API-KEY", api_key self);
                  ("CVE-API-ORG", org self);
                  ("CVE-API-USER", username self)] in
  lift (check_kwargs ["method"; "url"; "timeout"; "headers"] kwargs) ;;;
  response <- requests_request method url 60 headers kwargs ;;
  if raise_exc self then
    match raise_for_status response with
    | Some exc =>
        match exc_response exc with
        | Some r =>
            let error :=
              match json r with
              | Some v => Py.str v
              | None => repr_bytes (content r)
              end in
            raise (IdrException (exc_str exc +++ "; returned error: " +++ error))
        | None => raise (IdrException (exc_str exc))
        end
    | None => ret response
    end
  else ret response.

(** [Idr.get(self, path, **kwargs)] *)
Definition get (self : Idr) (path : string) (kwargs : dict) : M Response :=
  lift (check_kwargs ["self"; "path"] kwargs) ;;;
  http_request self "get" path kwargs.

(** [Idr.post(self, path, **kwargs)] *)
Definition post (self : Idr) (path : string) (kwargs : dict) : M Response :=
  lift (check_kwargs ["self"; "path"] kwargs) ;;;
  http_request self "post" path kwargs.

(** *** [get_paged]: a generator *)

(** Where the body of [get_paged] stands between two resumptions: at the
    head of the [while] loop (also before the first [next()]), inside
    [yield from] with the items still to give and the page they came
    from, or after its end. *)
Inductive gen_pc : Type :=
| LoopHead
| YieldFrom (pending : list pyval) (page : pyval)
| Returned.

(** The generator object: the arguments of the call and the position in
    the body.  [g_params] is the caller's [params] dictionary, which the
    body updates in place. *)
Record generator : Type := {
  g_self : Idr;
  g_path : string;
  g_page_data_attr : string;
  g_params : dict;
  g_kwargs : dict;
  g_pc : gen_pc
}.

Definition at_pc (g : generator) (pc : gen_pc) : generator :=
  {| g_self := g_self g; g_path := g_path g;
     g_page_data_attr := g_page_data_attr g; g_params := g_params g;
     g_kwargs := g_kwargs g; g_pc := pc |}.

Definition with_params (g : generator) (params : dict) : generator :=
  {| g_self := g_self g; g_path := g_path g;
     g_page_data_attr := g_page_data_attr g; g_params := params;
     g_kwargs := g_kwargs g; g_pc := g_pc g |}.

(** [Idr.get_paged(self, path, page_data_attr, params, **kwargs)]: the
    call binds the arguments and returns a generator; nothing of the body
    runs yet. *)
Definition get_paged (self : Idr) (path page_data_attr : string) (params : dict)
  (kwargs : dict) : result generator :=
  match check_kwargs ["self"; "path"; "page_data_attr"; "params"] kwargs with
  | Raise e => Raise e
  | Ok _ =>
      Ok {| g_self := self; g_path := path; g_page_data_attr := page_data_attr;
            g_params := params; g_kwargs := kwargs; g_pc := LoopHead |}
  end.

(** What one stretch of the body does. *)
Inductive step_out : Type :=
| Emit (v : pyval)      (* a [yield] *)
| Tau                   (* went on without yielding *)
| Stop                  (* the body ended *)
| Throw (e : exn).      (* an exception left the body *)

(** The part of the loop body before [yield from]: the request, the
    decoding, the lookup of the field, and taking an iterator on it. *)
Definition fetch_page (g : generator) : M (list pyval * pyval) :=
  response <- get (g_self g) (g_path g) (("params", PDict (g_params g)) :: g_kwargs g) ;;
  page <- lift (match json response with
                | Some v => Ok v
                | None => Raise (ValueError "response body is not JSON")
                end) ;;
  data <- lift (getitem page (g_page_data_attr g)) ;;
  items <- lift (iter data) ;;
  ret (items, page).

(** One stretch of the body of [get_paged]:
    - at the loop head, a page is fetched and [yield from] begins;
    - inside [yield from], the next item is yielded;
    - when the items are used up, [nextPage] decides between another
      round with [params["page"]] updated and the end. *)
Definition gen_step (g : generator) (w : World) : step_out * generator * World :=
  match g_pc g with
  | LoopHead =>
      match fetch_page g w with
      | (Ok (items, page), w') => (Tau, at_pc g (YieldFrom items page), w')
      | (Raise e, w') => (Throw e, at_pc g Returned, w')
      end
  | YieldFrom (x :: rest) page => (Emit x, at_pc g (YieldFrom rest page), w)
  | YieldFrom [] page =>
      match get_method page "nextPage" with
      | Ok PNone => (Stop, at_pc g Returned, w)
      | Ok next_page =>
          (Tau, at_pc (with_params g (dict_set (g_params g) "page" next_page)) LoopHead, w)
      | Raise e => (Throw e, at_pc g Returned, w)
      end
  | Returned => (Stop, g, w)
  end.

(** What a [next(gen)] call gives. *)
Inductive next_out : Type :=
| Yielded (v : pyval)
| StopIteration
| Raised (e : exn).

(** [next(gen)]: the body runs up to its next [yield], its end or an
    exception.  [fuel] bounds the stretches run; [None] is out of fuel. *)
Fixpoint gen_next (fuel : nat) (g : generator) (w : World)
  : option (next_out * generator * World) :=
  match fuel with
  | O => None
  | S fuel' =>
      match gen_step g w with
      | (Emit v, g', w') => Some (Yielded v, g', w')
      | (Tau, g', w') => gen_next fuel' g' w'
      | (Stop, g', w') => Some (StopIteration, g', w')
      | (Throw e, g', w') => Some (Raised e, g', w')
      end
  end.

(** A consumer that goes through the whole generator ([list(gen)], a
    [for] loop): the items in the order they came, and the exception that
    ended the iteration if one did. *)
Fixpoint drain (fuel : nat) (g : generator) (w : World)
  : option (list pyval * option exn * generator * World) :=
  match fuel with
  | O => None
  | S fuel' =>
      match gen_step g w with
      | (Emit v, g', w') =>
          match drain fuel' g' w' with
          | Some (items, e, g'', w'') => Some (v :: items, e, g'', w'')
          | None => None
          end
      | (Tau, g', w') => drain fuel' g' w'
      | (Stop, g', w') => Some ([], None, g', w')
      | (Throw e, g', w') => Some ([], Some e, g', w')
      end
  end.

(** A consumer that asks for at most [n] items and then stops asking
    ([itertools.islice(gen, n)], a [for] loop left by [break]).  [fuel]
    bounds each [next()]. *)
Fixpoint take (fuel : nat) (n : nat) (g : generator) (w : World)
  : option (list pyval * generator * World) :=
  match n with
  | O => Some ([], g, w)
  | S n' =>
      match gen_next fuel g w with
      | Some (Yielded v, g', w') =>
          match take fuel n' g' w' with
          | Some (items, g'', w'') => Some (v :: items, g'', w'')
          | None => None
          end
      | Some (_, g', w') => Some ([], g', w')
      | None => None
      end
  end.

(** *** The endpoints *)

(** [Idr.reserve(self, count, random, year, owning_cna)] *)
Definition reserve (self : Idr) (count : Z) (random : bool)
  (year owning_cna : pyval) : M Response :=
  let params := [("cve_year", year);
                 ("amount", PInt count);
                 ("short_name", owning_cna)] in
  let params :=
    if count >? 1
    then dict_set params "batch_type"
           (PStr (if random then "nonsequential" else "sequential"))
    else params in
  post self "cve-id" [("params", PDict params)].

(** [Idr.show_cve(self, cve_id)] *)
Definition show_cve (self : Idr) (cve_id : pyval) : M Response :=
  get self ("cve-id/" +++ Py.str cve_id) [].

(** [Idr.list_cves(self, year, state, reserved_lt, reserved_gt)].  An
    argument left out is [PNone] or [None]; [state] is a string and the
    two bounds are datetimes, which are always true. *)
Definition list_cves (self : Idr) (year : pyval) (state : option string)
  (reserved_lt reserved_gt : option datetime) : result generator :=
  let params := [] in
  let params :=
    if truthy year then dict_set params "cve_id_year" year else params in
  let params :=
    match state with
    | Some s =>
        if truthy (PStr s) then dict_set params "state" (PStr (PyStr.upper s))
        else params
    | None => params
    end in
  let params :=
    match reserved_lt with
    | Some d => dict_set params "time_reserved.lt" (PStr (isoformat d))
    | None => params
    end in
  let params :=
    match reserved_gt with
    | Some d => dict_set params "time_reserved.gt" (PStr (isoformat d))
    | None => params
    end in
  get_paged self "cve-id" "cve_ids" params [].

(** [Idr.quota(self)] *)
Definition quota (self : Idr) : M Response :=
  get self ("org/" +++ org self +++ "/id_quota") [].

(** [Idr.ping(self)] *)
Definition ping (self : Idr) : M Response :=
  get self "health-check" [].

End Client.

(* ================================================================== *)
(** ** Describing what the client sends *)

(** The request [http_request] hands to [requests.request] for the
    joined URL [u]. *)
Definition sent_request (self : Idr) (method u : string) (kwargs : dict) : Request :=
  {| rq_method := method; rq_url := u; rq_timeout := 60;
     rq_headers := [("CVE-API-KEY", api_key self);
                    ("CVE-API-ORG", org self);
                    ("CVE-API-USER", username self)];
     rq_kwargs := kwargs |}.

(** The keyword arguments a caller of [http_request], [get] or [post]
    may pass on: none that the call chain binds itself. *)
Definition passable (kwargs : dict) : bool :=
  kwargs_free ["self"; "method"; "path"; "url"; "timeout"; "headers"] kwargs.

(** What [raise_for_status] says of a status from 400 to 599. *)
Definition status_line (r : Response) : string :=
  PyStr.of_Z (status_code r)
  +++ (if status_code r <? 500 then " Client Error: " else " Server Error: ")
  +++ reason r +++ " for url: " +++ resp_url r.

(** The body of an error response as the message of [IdrException]
    shows it: the decoded JSON when there is one, the raw bytes
    otherwise. *)
Definition shown_body (r : Response) : string :=
  match json r with
  | Some v => Py.str v
  | None => repr_bytes (content r)
  end.

(* ================================================================== *)
(** ** Describing a pagination run *)

(** [r] is a page as [get_paged] reads one: a response whose decoded
    body is an object with the array [items] under [attr].  [cursor] is
    what [page.get("nextPage")] gives, so it is [PNone] both for a body
    without [nextPage] and for one with [nextPage] set to null. *)
Definition is_page (attr : string) (r : Response) (items : list pyval)
  (cursor : pyval) : Prop :=
  exists d, json r = Some (PDict d)
            /\ dict_get d attr = Some (PList items)
            /\ get_method (PDict d) "nextPage" = Ok cursor.

Section Runs.

Variable net : Network.
Variables (self : Idr) (path attr : string) (kwargs : dict).

(** [follows params w pages params' w']: starting with the parameters
    [params] and the log [w], the successive [self.get(path,
    params=params, **kwargs)] calls return pages whose items are [pages],
    each with a [nextPage] that is not null; [params'] and [w'] are the
    parameters and the log after them. *)
Inductive follows : dict -> World -> list (list pyval) -> dict -> World -> Prop :=
| follows_nil : forall params w, follows params w [] params w
| follows_cons : forall params w r items cursor w1 rest params' w',
    get net self path (("params", PDict params) :: kwargs) w = (Ok r, w1) ->
    is_page attr r items cursor ->
    cursor <> PNone ->
    follows (dict_set params "page" cursor) w1 rest params' w' ->
    follows params w (items :: rest) params' w'.

End Runs.

(** Fuel that is enough to go through pages holding [pages]: for each
    page one stretch to fetch it, one for each item, and one to look at
    [nextPage]. *)
Fixpoint run_fuel (pages : list (list pyval)) : nat :=
  match pages with
  | [] => O
  | items :: rest => S (List.length items + S (run_fuel rest))
  end.

(** The pages a consumer makes the generator fetch by asking for [n]
    items, when the pages hold [pages]: none for no item, and the next
    page only once the items of the pages before it are not enough. *)
Fixpoint fetches_needed (n : nat) (pages : list (list pyval)) : nat :=
  match pages with
  | [] => O
  | items :: rest =>
      match n with
      | O => O
      | S _ => S (fetches_needed (n - List.length items) rest)
      end
  end.

(* ================================================================== *)
(** ** Sample clients, networks and pages *)

Module Sample.

(** [Idr("alice", "acme", "s3cret")] *)
Definition client : Idr :=
  {| username := "alice"; org := "acme"; api_key := "s3cret";
     url := "https://cveawg.mitre.org/api/"; raise_exc := true |}.

(** The same client built with [raise_exc=False]. *)
Definition quiet_client : Idr :=
  {| username := "alice"; org := "acme"; api_key := "s3cret";
     url := "https://cveawg.mitre.org/api/"; raise_exc := false |}.

Definition response (status : Z) (reason body : string) (decoded : option pyval)
  : Response :=
  {| status_code := status; reason := reason;
     resp_url := "https://cveawg.mitre.org/api/cve-id";
     content := body; json := decoded |}.

(** A network on which every request is answered by [r]. *)
Definition always (r : Response) : Network := fun _ _ => Ok r.

(** A network on which every request times out. *)
Definition timing_out : Network :=
  fun _ _ => Raise (RequestsError ConnectTimeout "Connection to cveawg.mitre.org timed out.").

(** The JSON text of a value whose strings need no escaping. *)
Fixpoint json_text (v : pyval) : string :=
  match v with
  | PNone => "null"
  | PBool true => "true"
  | PBool false => "false"
  | PInt z => PyStr.of_Z z
  | PFloat r => r
  | PStr s => PyStr.quoted s
  | PList l => "[" +++ PyStr.join ", " (List.map json_text l) +++ "]"
  | PDict d =>
      "{" +++ PyStr.join ", "
                (List.map (fun kv => PyStr.quoted (fst kv) +++ ": " +++ json_text (snd kv)) d)
          +++ "}"
  end.

(** A response whose body is the JSON text of [v]. *)
Definition json_response (status : Z) (reason : string) (v : pyval) : Response :=
  response status reason (json_text v) (Some v).

Definition ok_empty : Response := json_response 200 "OK" (PDict []).

Definition not_modified : Response := response 304 "Not Modified" "" None.

Definition forbidden_json : Response :=
  json_response 403 "Forbidden" (PDict [("error", PStr "UNAUTHORIZED")]).

Definition bad_gateway_html : Response :=
  response 502 "Bad Gateway" "<html>502</html>" None.

Definition cve (id : string) : pyval := PDict [("cve_id", PStr id)].

(** A page of the list endpoint: the body [{"cve_ids": items}], with a
    [nextPage] entry when [next_page] is given. *)
Definition page (items : list pyval) (next_page : option pyval) : Response :=
  let d := [("cve_ids", PList items)] in
  let d := match next_page with
           | Some c => d ++ [("nextPage", c)]
           | None => d
           end in
  json_response 200 "OK" (PDict d).

(** The [page] parameter of a request, if it has one. *)
Definition requested_page (req : Request) : option pyval :=
  match dict_get (rq_kwargs req) "params" with
  | Some (PDict params) => dict_get params "page"
  | _ => None
  end.

(** The request [client] makes for the list endpoint with the parameters
    [params]. *)
Definition list_request (params : dict) : Request :=
  sent_request client "get" "https://cveawg.mitre.org/api/cve-id"
               [("params", PDict params)].

(** A server with three pages, [nextPage] being 2, 3 and then null. *)
Definition three_pages : Network :=
  fun _ req =>
    match requested_page req with
    | None => Ok (page [cve "CVE-2021-0001"; cve "CVE-2021-0002"] (Some (PInt 2)))
    | Some (PInt 2) => Ok (page [cve "CVE-2021-0003"; cve "CVE-2021-0004"] (Some (PInt 3)))
    | Some (PInt 3) => Ok (page [cve "CVE-2021-0005"] (Some PNone))
    | Some _ => Ok (response 404 "Not Found" "" None)
    end.

(** A server whose only page has no [nextPage] entry at all. *)
Definition one_page_no_cursor : Network :=
  always (page [cve "CVE-2021-0001"; cve "CVE-2021-0002"] None).

(** A server whose only page has [nextPage] set to null. *)
Definition one_page_null_cursor : Network :=
  always (page [cve "CVE-2021-0001"; cve "CVE-2021-0002"] (Some PNone)).

(** A server whose second page has no [cve_ids] entry. *)
Definition second_page_broken : Network :=
  fun _ req =>
    match requested_page req with
    | None => Ok (page [cve "CVE-2021-0001"; cve "CVE-2021-0002"] (Some (PInt 2)))
    | Some _ => Ok (json_response 200 "OK" (PDict [("nextPage", PNone)]))
    end.


End Sample.


(* ================================================================== *)
(** ** Describing a run with its cursors *)

Section Cursors.

Variable net : Network.
Variables (self : Idr) (path attr : string) (kwargs : dict).

(** [follows_cursors params w pages params' w'] is [follows] with the
    pages given as their items and their [nextPage], none of which is
    null. *)
Inductive follows_cursors
  : dict -> World -> list (list pyval * pyval) -> dict -> World -> Prop :=
| follows_cursors_nil : forall params w, follows_cursors params w [] params w
| follows_cursors_cons : forall params w r items cursor w1 rest params' w',
    get net self path (("params", PDict params) :: kwargs) w = (Ok r, w1) ->
    is_page attr r items cursor ->
    cursor <> PNone ->
    follows_cursors (dict_set params "page" cursor) w1 rest params' w' ->
    follows_cursors params w ((items, cursor) :: rest) params' w'.

End Cursors.



(** Text made of letters, digits, hyphens and underscores, as a CVE
    identifier or the short name of an organization is. *)
Definition is_word_char (a : ascii) : bool :=
  (PyStr.is_alpha a || PyStr.is_digit a || Ascii.eqb a "-" || Ascii.eqb a "_")%bool.

Definition is_word (s : string) : bool := PyStr.forallb is_word_char s.

(** A character of a plain relative path: a word character or a slash. *)
Definition is_path_char (a : ascii) : bool :=
  (is_word_char a || Ascii.eqb a "/")%bool.

Module MoreSamples.
Import Sample.

(** A server that never ends: the page asked for holds one record and
    names the next page. *)
Definition endless : Network :=
  fun _ req =>
    match requested_page req with
    | None => Ok (page [cve "CVE-2021-0001"] (Some (PInt 2)))
    | Some (PInt k) => Ok (page [cve "CVE-2021-0001"] (Some (PInt (k + 1))))
    | Some _ => Ok (response 404 "Not Found" EmptyString None)
    end.

(** A server whose first page names page 2, and that answers anything
    else with [second]. *)
Definition then_answers (second : result Response) : Network :=
  fun _ req =>
    match requested_page req with
    | None => Ok (page [cve "CVE-2021-0001"; cve "CVE-2021-0002"] (Some (PInt 2)))
    | Some _ => second
    end.


(** A page that is HTML, with status 200. *)
Definition html_page : Response := response 200 "OK" "<html>maintenance</html>" None.

(** A page whose [cve_ids] is a number, and one whose [cve_ids] is a
    string. *)
Definition numeric_field : Response :=
  json_response 200 "OK" (PDict [("cve_ids", PInt 7)]).

Definition string_field : Response :=
  json_response 200 "OK" (PDict [("cve_ids", PStr "ab")]).

End MoreSamples.


(* ================================================================== *)
(** * Properties *)

Import Sample.

(** ** The monad and the request log *)

Lemma bind_lift_ok {A B : Type} (r : result A) (k : A -> M B) (w : World) (a : A) :
  r = Ok a -> bind (lift r) k w = k a w.
Proof. intros ->. reflexivity. Qed.

Lemma check_kwargs_ok (given : list string) (kwargs : dict) :
  kwargs_free given kwargs = true -> check_kwargs given kwargs = Ok tt.
Proof.
  unfold check_kwargs, kwargs_free.
  induction given as [|k given IH]; simpl; intros H; [reflexivity|].
  apply andb_true_iff in H as [Hk Hg].
  apply negb_true_iff in Hk. rewrite Hk. now apply IH.
Qed.

Lemma passable_checks (kwargs : dict) :
  passable kwargs = true ->
  check_kwargs ["self"; "method"; "path"] kwargs = Ok tt
  /\ check_kwargs ["method"; "url"; "timeout"; "headers"] kwargs = Ok tt
  /\ check_kwargs ["self"; "path"] kwargs = Ok tt.
Proof.
  unfold passable, kwargs_free. simpl. intros H.
  repeat (apply andb_true_iff in H as [? H]).
  repeat split; apply check_kwargs_ok; unfold kwargs_free; simpl;
    repeat (apply andb_true_iff; split); auto.
Qed.

(** ** [raise_for_status] *)

Lemma is_empty_app_r (a b : string) :
  PyStr.is_empty b = false -> PyStr.is_empty (a +++ b) = false.
Proof. destruct a; auto. Qed.

Lemma raise_for_status_error (r : Response) :
  400 <= status_code r < 600 ->
  raise_for_status r = Some {| exc_str := status_line r; exc_response := Some r |}.
Proof.
  intros [Hlo Hhi]. unfold raise_for_status, status_line.
  apply Z.leb_le in Hlo. rewrite Hlo. simpl andb.
  destruct (status_code r <? 500) eqn:E.
  - now rewrite is_empty_app_r.
  - apply Z.ltb_ge in E.
    assert (H5 : (500 <=? status_code r) = true) by now apply Z.leb_le.
    assert (H6 : (status_code r <? 600) = true) by now apply Z.ltb_lt.
    rewrite H5, H6. simpl andb. cbv iota. now rewrite is_empty_app_r.
Qed.

Lemma raise_for_status_fine (r : Response) :
  status_code r < 400 \/ 600 <= status_code r ->
  raise_for_status r = None.
Proof.
  intros H. unfold raise_for_status.
  destruct (400 <=? status_code r) eqn:E4; simpl andb.
  - apply Z.leb_le in E4.
    assert (H5 : (status_code r <? 500) = false) by (apply Z.ltb_ge; lia).
    assert (H6 : (status_code r <? 600) = false) by (apply Z.ltb_ge; lia).
    rewrite H5, H6. now rewrite andb_false_r.
  - apply Z.leb_gt in E4.
    assert (H5 : (500 <=? status_code r) = false) by (apply Z.leb_gt; lia).
    now rewrite H5.
Qed.

(** The exception [raise_for_status] raises always carries the response,
    so the [else] branch of [http_request] that wraps an exception without
    one is never taken. *)
Lemma raise_for_status_response (r : Response) (exc : RequestException) :
  raise_for_status r = Some exc -> exc_response exc = Some r.
Proof.
  unfold raise_for_status.
  destruct (PyStr.is_empty _); [discriminate|].
  intros H. injection H as <-. reflexivity.
Qed.

(** ** [http_request] *)

Section HttpRequest.

Variable net : Network.
Variables (self : Idr) (method path : string) (kwargs : dict) (w : World).
Variable u : string.
Hypothesis Hkw : passable kwargs = true.
Hypothesis Hjoin : urljoin (url self) path = Ok u.

Local Abbreviation req := (sent_request self method u kwargs).

(** What [http_request] comes to once the arguments are bound and the
    URL is joined: one request, and the response handled. *)
Lemma http_request_unfold :
  http_request net self method path kwargs w =
  (match net w req with
   | Raise e => Raise e
   | Ok response =>
       if raise_exc self then
         match raise_for_status response with
         | Some exc =>
             Raise (IdrException (exc_str exc +++ "; returned error: "
                                  +++ shown_body response))
         | None => Ok response
         end
       else Ok response
   end, w ++ [req]).
Proof.
  destruct (passable_checks kwargs Hkw) as (H1 & H2 & _).
  unfold http_request.
  rewrite (bind_lift_ok _ _ _ tt H1).
  rewrite (bind_lift_ok _ _ _ u Hjoin).
  rewrite (bind_lift_ok _ _ _ tt H2).
  unfold bind, requests_request, sent_request.
  destruct (net w _) as [response|e]; [|reflexivity].
  destruct (raise_exc self); [|reflexivity].
  destruct (raise_for_status response) as [exc|] eqn:E; [|reflexivity].
  rewrite (raise_for_status_response _ _ E). reflexivity.
Qed.

(** Exactly one request goes out, whatever comes back. *)
Lemma http_request_log :
  snd (http_request net self method path kwargs w) = w ++ [req].
Proof. now rewrite http_request_unfold. Qed.

(** An exception of the transport reaches the caller as it is. *)
Lemma http_request_transport_error (e : exn) :
  net w req = Raise e ->
  http_request net self method path kwargs w = (Raise e, w ++ [req]).
Proof. intros H. rewrite http_request_unfold. now rewrite H. Qed.

Lemma http_request_quiet (r : Response) :
  net w req = Ok r -> raise_exc self = false ->
  http_request net self method path kwargs w = (Ok r, w ++ [req]).
Proof. intros H Hq. rewrite http_request_unfold. now rewrite H, Hq. Qed.

Lemma http_request_fine (r : Response) :
  net w req = Ok r -> status_code r < 400 \/ 600 <= status_code r ->
  http_request net self method path kwargs w = (Ok r, w ++ [req]).
Proof.
  intros H Hs. rewrite http_request_unfold, H.
  rewrite (raise_for_status_fine r Hs). now destruct (raise_exc self).
Qed.

Lemma http_request_error_status (r : Response) :
  net w req = Ok r -> raise_exc self = true -> 400 <= status_code r < 600 ->
  http_request net self method path kwargs w =
  (Raise (IdrException (status_line r +++ "; returned error: " +++ shown_body r)),
   w ++ [req]).
Proof.
  intros H Hr Hs. rewrite http_request_unfold, H, Hr.
  now rewrite (raise_for_status_error r Hs).
Qed.

(** [get] and [post] are [http_request] with the method fixed. *)
Lemma get_unfold :
  get net self path kwargs w = http_request net self "get" path kwargs w.
Proof.
  destruct (passable_checks kwargs Hkw) as (_ & _ & H3).
  unfold get. now rewrite (bind_lift_ok _ _ _ tt H3).
Qed.

Lemma post_unfold :
  post net self path kwargs w = http_request net self "post" path kwargs w.
Proof.
  destruct (passable_checks kwargs Hkw) as (_ & _ & H3).
  unfold post. now rewrite (bind_lift_ok _ _ _ tt H3).
Qed.

End HttpRequest.

(** ** Construction *)




(** ** Error handling of [http_request] *)

(** C4: for a response with an error status (400 to 599), a client with
    [raise_exc] enabled, which is the default, raises an [IdrException]
    whose message is the description of the HTTP error, then
    [; returned error: ], then the body: the decoded JSON when the body
    decodes, the raw bytes otherwise.  A client with [raise_exc] disabled
    returns the response as it came, whatever its status. *)
Theorem http_request_raise_exc_policy (net : Network) (self : Idr)
  (method path : string) (kwargs : dict) (w : World) (u : string) (r : Response) :
  passable kwargs = true ->
  urljoin (url self) path = Ok u ->
  net w (sent_request self method u kwargs) = Ok r ->
  (raise_exc self = true -> 400 <= status_code r < 600 ->
   fst (http_request net self method path kwargs w)
     = Raise (IdrException (status_line r +++ "; returned error: " +++ shown_body r))
   /\ (forall v, json r = Some v -> shown_body r = Py.str v)
   /\ (json r = None -> shown_body r = repr_bytes (content r)))
  /\ (raise_exc self = false ->
      fst (http_request net self method path kwargs w) = Ok r)
  /\ (forall username org api_key c,
        Idr_default username org api_key = Ok c -> raise_exc c = true).
Proof.
  intros Hkw Hjoin Hnet. split; [|split].
  - intros Hr Hs.
    rewrite (http_request_error_status net self method path kwargs w u Hkw Hjoin r Hnet Hr Hs).
    split; [reflexivity|]. unfold shown_body.
    split; [intros v ->|intros ->]; reflexivity.
  - intros Hq.
    now rewrite (http_request_quiet net self method path kwargs w u Hkw Hjoin r Hnet Hq).
  - intros username org api_key c H. unfold Idr_default in H. simpl in H.
    injection H as <-. reflexivity.
Qed.

Lemma http_request_raise_exc_policy_witness :
  fst (http_request (always forbidden_json) client "get" "cve-id" [] [])
    = Raise (IdrException
               "403 Client Error: Forbidden for url: https://cveawg.mitre.org/api/cve-id; returned error: {'error': 'UNAUTHORIZED'}")
  /\ fst (http_request (always bad_gateway_html) client "get" "cve-id" [] [])
     = Raise (IdrException
                "502 Server Error: Bad Gateway for url: https://cveawg.mitre.org/api/cve-id; returned error: b'<html>502</html>'")
  /\ fst (http_request (always bad_gateway_html) quiet_client "get" "cve-id" [] [])
     = Ok bad_gateway_html.
Proof.
  split; [|split].
  - apply (http_request_raise_exc_policy (always forbidden_json) client "get" "cve-id"
             [] [] "https://cveawg.mitre.org/api/cve-id" forbidden_json);
      try reflexivity. simpl; lia.
  - apply (http_request_raise_exc_policy (always bad_gateway_html) client "get" "cve-id"
             [] [] "https://cveawg.mitre.org/api/cve-id" bad_gateway_html);
      try reflexivity. simpl; lia.
  - apply (http_request_raise_exc_policy (always bad_gateway_html) quiet_client "get"
             "cve-id" [] [] "https://cveawg.mitre.org/api/cve-id" bad_gateway_html);
      reflexivity.
Defined.




(** ** Request shaping of the endpoints *)

(** C7: [reserve] sends one POST whose parameters always hold
    [cve_year], [amount] and [short_name]; [batch_type] is left out for a
    count of 1 (and for any count up to 1), is [nonsequential] for a count
    above 1 with [random] true, and [sequential] for a count above 1 with
    [random] false. *)
Theorem reserve_params (net : Network) (self : Idr) (count : Z) (random : bool)
  (year owning_cna : pyval) (w : World) (u : string) :
  urljoin (url self) "cve-id" = Ok u ->
  exists params,
    snd (reserve net self count random year owning_cna w)
      = w ++ [sent_request self "post" u [("params", PDict params)]]
    /\ dict_get params "cve_year" = Some year
    /\ dict_get params "amount" = Some (PInt count)
    /\ dict_get params "short_name" = Some owning_cna
    /\ (count <= 1 -> dict_get params "batch_type" = None)
    /\ (count > 1 -> random = true ->
        dict_get params "batch_type" = Some (PStr "nonsequential"))
    /\ (count > 1 -> random = false ->
        dict_get params "batch_type" = Some (PStr "sequential")).
Proof.
  intros Hjoin. unfold reserve.
  set (params0 := [("cve_year", year); ("amount", PInt count);
                   ("short_name", owning_cna)]).
  set (params := if count >? 1 then _ else params0).
  exists params. split.
  - rewrite (post_unfold net self "cve-id" [("params", PDict params)] w eq_refl).
    apply (http_request_log net self "post" "cve-id" [("params", PDict params)]
             w u eq_refl Hjoin).
  - subst params params0. destruct (count >? 1) eqn:E.
    + apply Z.gtb_lt in E.
      repeat split; try reflexivity; try lia; now intros _ ->.
    + rewrite Z.gtb_ltb in E. apply Z.ltb_ge in E.
      repeat split; try reflexivity; lia.
Qed.

Lemma reserve_params_witness :
  exists params,
    snd (reserve (always ok_empty) client 5 true (PInt 2021) (PStr "acme") [])
      = [] ++ [sent_request client "post" "https://cveawg.mitre.org/api/cve-id"
                 [("params", PDict params)]]
    /\ dict_get params "amount" = Some (PInt 5)
    /\ dict_get params "batch_type" = Some (PStr "nonsequential").
Proof.
  destruct (reserve_params (always ok_empty) client 5 true (PInt 2021) (PStr "acme")
              [] "https://cveawg.mitre.org/api/cve-id" eq_refl)
    as (params & Hlog & _ & Hamount & _ & _ & Hbatch & _).
  exists params. split; [exact Hlog|]. split; [exact Hamount|].
  apply Hbatch; [lia|reflexivity].
Defined.

(** The three reservations the specification lists. *)
Example reserve_one :
  snd (reserve (always ok_empty) client 1 true (PInt 2021) (PStr "acme") [])
    = [sent_request client "post" "https://cveawg.mitre.org/api/cve-id"
         [("params", PDict [("cve_year", PInt 2021); ("amount", PInt 1);
                            ("short_name", PStr "acme")])]].
Proof. reflexivity. Qed.

Example reserve_five_random :
  snd (reserve (always ok_empty) client 5 true (PInt 2021) (PStr "acme") [])
    = [sent_request client "post" "https://cveawg.mitre.org/api/cve-id"
         [("params", PDict [("cve_year", PInt 2021); ("amount", PInt 5);
                            ("short_name", PStr "acme");
                            ("batch_type", PStr "nonsequential")])]].
Proof. reflexivity. Qed.

Example reserve_five_sequential :
  snd (reserve (always ok_empty) client 5 false (PInt 2021) (PStr "acme") [])
    = [sent_request client "post" "https://cveawg.mitre.org/api/cve-id"
         [("params", PDict [("cve_year", PInt 2021); ("amount", PInt 5);
                            ("short_name", PStr "acme");
                            ("batch_type", PStr "sequential")])]].
Proof. reflexivity. Qed.

(** ** The generator of [get_paged] *)

(** A [get] that returns has sent exactly one request. *)
Lemma get_ok_log (net : Network) (self : Idr) (path : string) (kwargs : dict)
  (w w' : World) (r : Response) :
  get net self path kwargs w = (Ok r, w') -> exists req, w' = w ++ [req].
Proof.
  unfold get, http_request, bind, lift, requests_request, raise, ret.
  destruct (check_kwargs ["self"; "path"] kwargs); [|discriminate].
  destruct (check_kwargs ["self"; "method"; "path"] kwargs); [|discriminate].
  destruct (urljoin (url self) path) as [u|]; [|discriminate].
  destruct (check_kwargs ["method"; "url"; "timeout"; "headers"] kwargs); [|discriminate].
  destruct (net w _) as [response|]; [|discriminate].
  intros H. eexists.
  destruct (raise_exc self).
  - destruct (raise_for_status response) as [exc|].
    + destruct (exc_response exc); discriminate.
    + injection H as _ <-. reflexivity.
  - injection H as _ <-. reflexivity.
Qed.

Section Generator.

Variable net : Network.
Variables (self : Idr) (path attr : string) (kwargs : dict).

(** The generator of this call with the parameters [params], at [pc],
    and the request for a page it makes. *)
Local Abbreviation G params pc :=
  {| g_self := self; g_path := path; g_page_data_attr := attr;
     g_params := params; g_kwargs := kwargs; g_pc := pc |}.

Local Abbreviation fetch params :=
  (get net self path (("params", PDict params) :: kwargs)).

Lemma get_paged_generator (params : dict) :
  kwargs_free ["self"; "path"; "page_data_attr"; "params"] kwargs = true ->
  get_paged self path attr params kwargs = Ok (G params LoopHead).
Proof.
  intros H. unfold get_paged. now rewrite (check_kwargs_ok _ _ H).
Qed.

(** *** One stretch *)

Lemma step_fetch (params : dict) (w w1 : World) (r : Response)
  (d : dict) (items : list pyval) :
  fetch params w = (Ok r, w1) ->
  json r = Some (PDict d) ->
  dict_get d attr = Some (PList items) ->
  gen_step net (G params LoopHead) w
    = (Tau, G params (YieldFrom items (PDict d)), w1).
Proof.
  intros Hget Hjson Hattr. unfold gen_step, fetch_page. simpl.
  unfold bind at 1. rewrite Hget.
  unfold bind, lift, ret. rewrite Hjson. simpl. now rewrite Hattr.
Qed.

Lemma step_fetch_raises (params : dict) (w w1 : World) (e : exn) :
  fetch params w = (Raise e, w1) ->
  gen_step net (G params LoopHead) w = (Throw e, G params Returned, w1).
Proof.
  intros Hget. unfold gen_step, fetch_page. simpl.
  unfold bind at 1. now rewrite Hget.
Qed.

Lemma step_fetch_not_json (params : dict) (w w1 : World) (r : Response) :
  fetch params w = (Ok r, w1) ->
  json r = None ->
  gen_step net (G params LoopHead) w
    = (Throw (ValueError "response body is not JSON"), G params Returned, w1).
Proof.
  intros Hget Hjson. unfold gen_step, fetch_page. simpl.
  unfold bind at 1. rewrite Hget.
  unfold bind, lift. now rewrite Hjson.
Qed.

Lemma step_fetch_no_field (params : dict) (w w1 : World) (r : Response) (page : pyval)
  (e : exn) :
  fetch params w = (Ok r, w1) ->
  json r = Some page ->
  getitem page attr = Raise e ->
  gen_step net (G params LoopHead) w = (Throw e, G params Returned, w1).
Proof.
  intros Hget Hjson Hattr. unfold gen_step, fetch_page. simpl.
  unfold bind at 1. rewrite Hget.
  unfold bind, lift. rewrite Hjson. now rewrite Hattr.
Qed.

Lemma step_emit (params : dict) (x : pyval) (rest : list pyval) (page : pyval)
  (w : World) :
  gen_step net (G params (YieldFrom (x :: rest) page)) w
    = (Emit x, G params (YieldFrom rest page), w).
Proof. reflexivity. Qed.

Lemma step_last (params : dict) (page : pyval) (w : World) :
  get_method page "nextPage" = Ok PNone ->
  gen_step net (G params (YieldFrom [] page)) w = (Stop, G params Returned, w).
Proof. intros H. unfold gen_step. simpl. now rewrite H. Qed.

Lemma step_more (params : dict) (page cursor : pyval) (w : World) :
  get_method page "nextPage" = Ok cursor -> cursor <> PNone ->
  gen_step net (G params (YieldFrom [] page)) w
    = (Tau, G (dict_set params "page" cursor) LoopHead, w).
Proof.
  intros H Hc. unfold gen_step. simpl. rewrite H.
  destruct cursor; try reflexivity. congruence.
Qed.

Lemma step_returned (params : dict) (w : World) :
  gen_step net (G params Returned) w = (Stop, G params Returned, w).
Proof. reflexivity. Qed.

(** A stretch sends at most one request, and none unless it starts at
    the loop head. *)
Lemma step_log (g : generator) (w : World) :
  snd (gen_step net g w) = w \/ g_pc g = LoopHead.
Proof.
  unfold gen_step. destruct (g_pc g) as [|[|x rest] page|]; auto.
  left. destruct (get_method page "nextPage") as [[]|]; reflexivity.
Qed.

(** *** Going through the items *)

Lemma drain_more_fuel (fuel fuel' : nat) (g : generator) (w : World)
  (out : list pyval * option exn * generator * World) :
  drain net fuel g w = Some out -> (fuel <= fuel')%nat ->
  drain net fuel' g w = Some out.
Proof.
  revert fuel' g w out.
  induction fuel as [|fuel IH]; intros fuel' g w out H Hle; [discriminate|].
  destruct fuel' as [|fuel']; [lia|].
  simpl in *. destruct (gen_step net g w) as [[[v| | |e] g1] w1]; auto.
  - destruct (drain net fuel g1 w1) as [[[[items e] g2] w2]|] eqn:E; [|discriminate].
    rewrite (IH fuel' _ _ _ E); [assumption|lia].
  - apply IH; [assumption|lia].
Qed.

Lemma drain_items (params : dict) (pending : list pyval) (page : pyval) (w : World)
  (fuel : nat) (tail : list pyval) (e : option exn) (gf : generator) (wf : World) :
  drain net fuel (G params (YieldFrom [] page)) w = Some (tail, e, gf, wf) ->
  drain net (List.length pending + fuel) (G params (YieldFrom pending page)) w
    = Some (pending ++ tail, e, gf, wf).
Proof.
  intros H. induction pending as [|x pending IH]; [exact H|].
  cbn [List.length Nat.add drain]. rewrite step_emit.
  rewrite IH. reflexivity.
Qed.

(** The pages before the last: their items come out in order, and the
    iteration goes on from the parameters and the log they lead to. *)
Lemma drain_follows (params params' : dict) (w w' : World) (pages : list (list pyval)) :
  follows net self path attr kwargs params w pages params' w' ->
  forall fuel tail e gf wf,
    drain net fuel (G params' LoopHead) w' = Some (tail, e, gf, wf) ->
    drain net (run_fuel pages + fuel) (G params LoopHead) w
      = Some (List.concat pages ++ tail, e, gf, wf).
Proof.
  induction 1 as [|params w r items cursor w1 rest params' w' Hget Hpage Hc _ IH];
    intros fuel tail e gf wf Hrest; [exact Hrest|].
  destruct Hpage as (d & Hjson & Hattr & Hcur).
  cbn [run_fuel List.concat]. cbn [Nat.add drain].
  rewrite (step_fetch params w w1 r d items Hget Hjson Hattr).
  rewrite <- app_assoc.
  replace (List.length items + S (run_fuel rest) + fuel)%nat
    with (List.length items + S (run_fuel rest + fuel))%nat by lia.
  apply drain_items. cbn [drain].
  rewrite (step_more params (PDict d) cursor w1 Hcur Hc).
  now apply IH.
Qed.

Lemma follows_log (params params' : dict) (w w' : World) (pages : list (list pyval)) :
  follows net self path attr kwargs params w pages params' w' ->
  List.length w' = (List.length w + List.length pages)%nat.
Proof.
  induction 1 as [|params w r items cursor w1 rest params' w' Hget _ _ _ IH];
    [simpl; lia|].
  destruct (get_ok_log _ _ _ _ _ _ _ Hget) as (req & ->).
  rewrite IH, length_app. simpl. lia.
Qed.

(** The last page: its items come out and the iteration ends. *)
Lemma drain_last (params : dict) (w w1 : World) (r : Response) (items : list pyval) :
  fetch params w = (Ok r, w1) ->
  is_page attr r items PNone ->
  drain net (run_fuel [items]) (G params LoopHead) w
    = Some (items, None, G params Returned, w1).
Proof.
  intros Hget (d & Hjson & Hattr & Hcur).
  cbn [run_fuel drain].
  rewrite (step_fetch params w w1 r d items Hget Hjson Hattr).
  assert (Hend : drain net 1 (G params (YieldFrom [] (PDict d))) w1
                 = Some ([], None, G params Returned, w1))
    by (cbn [drain]; now rewrite (step_last params (PDict d) w1 Hcur)).
  rewrite (drain_items params items (PDict d) w1 1 [] None _ _ Hend).
  now rewrite app_nil_r.
Qed.

(** A fetch that fails ends the iteration with its exception, after the
    items of the pages before it. *)
Lemma drain_fetch_fails (params params' : dict) (w w' w'' : World)
  (pages : list (list pyval)) (e : exn) :
  follows net self path attr kwargs params w pages params' w' ->
  get net self path (("params", PDict params') :: kwargs) w' = (Raise e, w'') ->
  drain net (run_fuel pages + 1) (G params LoopHead) w
    = Some (List.concat pages, Some e, G params' Returned, w'').
Proof.
  intros Hpages Hget.
  rewrite <- (app_nil_r (List.concat pages)).
  apply (drain_follows _ _ _ _ _ Hpages).
  cbn [drain].
  now rewrite (step_fetch_raises params' w' w'' e Hget).
Qed.

Lemma run_fuel_app (pages1 pages2 : list (list pyval)) :
  run_fuel (pages1 ++ pages2) = (run_fuel pages1 + run_fuel pages2)%nat.
Proof.
  induction pages1 as [|items rest IH]; [reflexivity|].
  simpl. rewrite IH. lia.
Qed.

End Generator.

(** ** Pagination *)

(** C1: when the successive fetches of a run return pages whose
    [nextPage] is not null and then a page whose [nextPage] is absent or
    null, going through the generator gives the items of all these pages,
    page after page in the order the server gave them, and ends without an
    exception; the run has made one request for each of these pages and
    none after the last, and the finished generator makes none either. *)
Theorem get_paged_yields_concatenation (net : Network) (self : Idr)
  (path page_data_attr : string) (params kwargs : dict) (w : World)
  (pages : list (list pyval)) (params' : dict) (w' : World)
  (r : Response) (items : list pyval) (w'' : World) :
  kwargs_free ["self"; "path"; "page_data_attr"; "params"] kwargs = true ->
  follows net self path page_data_attr kwargs params w pages params' w' ->
  get net self path (("params", PDict params') :: kwargs) w' = (Ok r, w'') ->
  is_page page_data_attr r items PNone ->
  exists g g',
    get_paged self path page_data_attr params kwargs = Ok g
    /\ (forall fuel, (run_fuel (pages ++ [items]) <= fuel)%nat ->
        drain net fuel g w = Some (List.concat (pages ++ [items]), None, g', w''))
    /\ List.length w'' = (List.length w + List.length (pages ++ [items]))%nat
    /\ g_pc g' = Returned
    /\ gen_next net 1 g' w'' = Some (StopIteration, g', w'').
Proof.
  intros Hkw Hpages Hget Hlast.
  eexists. eexists. split; [now apply get_paged_generator|]. split; [|split; [|split]].
  - intros fuel Hfuel.
    apply (drain_more_fuel net (run_fuel (pages ++ [items]))); [|assumption].
    rewrite run_fuel_app, concat_app. cbn [List.concat]. rewrite app_nil_r.
    apply (drain_follows net self path page_data_attr kwargs _ _ _ _ _ Hpages).
    exact (drain_last net self path page_data_attr kwargs params' w' w'' r items
             Hget Hlast).
  - destruct (get_ok_log _ _ _ _ _ _ _ Hget) as (req & ->).
    rewrite !length_app, (follows_log _ _ _ _ _ _ _ _ _ _ Hpages). simpl. lia.
  - reflexivity.
  - reflexivity.
Qed.

(** The run of the specification: [nextPage] is 2, then 3, then null; the
    five items of the three pages come out in order and the log holds
    three requests. *)
Lemma three_pages_follows :
  follows three_pages client "cve-id" "cve_ids" [] [] []
    [[cve "CVE-2021-0001"; cve "CVE-2021-0002"];
     [cve "CVE-2021-0003"; cve "CVE-2021-0004"]]
    [("page", PInt 3)]
    [list_request []; list_request [("page", PInt 2)]].
Proof.
  apply follows_cons
    with (r := page [cve "CVE-2021-0001"; cve "CVE-2021-0002"] (Some (PInt 2)))
         (cursor := PInt 2) (w1 := [list_request []]);
    [reflexivity
    |eexists; repeat split; reflexivity
    |discriminate|].
  apply follows_cons
    with (r := page [cve "CVE-2021-0003"; cve "CVE-2021-0004"] (Some (PInt 3)))
         (cursor := PInt 3) (w1 := [list_request []; list_request [("page", PInt 2)]]);
    [reflexivity
    |eexists; repeat split; reflexivity
    |discriminate|].
  apply follows_nil.
Qed.

Lemma three_pages_last :
  is_page "cve_ids" (page [cve "CVE-2021-0005"] (Some PNone)) [cve "CVE-2021-0005"] PNone.
Proof. eexists. repeat split; reflexivity. Qed.

Lemma get_paged_yields_concatenation_witness :
  exists g g',
    get_paged client "cve-id" "cve_ids" [] [] = Ok g
    /\ drain three_pages 20 g []
       = Some ([cve "CVE-2021-0001"; cve "CVE-2021-0002"; cve "CVE-2021-0003";
                cve "CVE-2021-0004"; cve "CVE-2021-0005"], None, g',
               [list_request []; list_request [("page", PInt 2)];
                list_request [("page", PInt 3)]])
    /\ List.length [list_request []; list_request [("page", PInt 2)];
                    list_request [("page", PInt 3)]] = 3%nat.
Proof.
  destruct (get_paged_yields_concatenation three_pages client "cve-id" "cve_ids"
              [] [] []
              [[cve "CVE-2021-0001"; cve "CVE-2021-0002"];
               [cve "CVE-2021-0003"; cve "CVE-2021-0004"]]
              [("page", PInt 3)]
              [list_request []; list_request [("page", PInt 2)]]
              (page [cve "CVE-2021-0005"] (Some PNone)) [cve "CVE-2021-0005"]
              [list_request []; list_request [("page", PInt 2)];
               list_request [("page", PInt 3)]]
              eq_refl three_pages_follows eq_refl three_pages_last)
    as (g & g' & Hg & Hdrain & Hlog & _).
  exists g, g'. split; [exact Hg|]. split.
  - apply Hdrain. simpl. lia.
  - exact Hlog.
Defined.

(** C6: a page without a [nextPage] entry and a page whose [nextPage] is
    null are treated alike.  In both cases going through the generator
    gives the items of that page and ends without an exception, and
    exactly one request has been made. *)
Theorem absent_cursor_same_as_null (net1 net2 : Network) (self : Idr)
  (path page_data_attr : string) (params kwargs : dict) (w w1 w2 : World)
  (r1 r2 : Response) (d1 d2 : dict) (items : list pyval) :
  kwargs_free ["self"; "path"; "page_data_attr"; "params"] kwargs = true ->
  get net1 self path (("params", PDict params) :: kwargs) w = (Ok r1, w1) ->
  json r1 = Some (PDict d1) ->
  dict_get d1 page_data_attr = Some (PList items) ->
  dict_get d1 "nextPage" = None ->
  get net2 self path (("params", PDict params) :: kwargs) w = (Ok r2, w2) ->
  json r2 = Some (PDict d2) ->
  dict_get d2 page_data_attr = Some (PList items) ->
  dict_get d2 "nextPage" = Some PNone ->
  exists g g',
    get_paged self path page_data_attr params kwargs = Ok g
    /\ g_pc g' = Returned
    /\ (forall fuel, (List.length items + 2 <= fuel)%nat ->
        drain net1 fuel g w = Some (items, None, g', w1)
        /\ drain net2 fuel g w = Some (items, None, g', w2))
    /\ List.length w1 = S (List.length w)
    /\ List.length w2 = S (List.length w).
Proof.
  intros Hkw Hget1 Hjson1 Hitems1 Hcur1 Hget2 Hjson2 Hitems2 Hcur2.
  assert (Hpage1 : is_page page_data_attr r1 items PNone).
  { exists d1. repeat split; try assumption. simpl. now rewrite Hcur1. }
  assert (Hpage2 : is_page page_data_attr r2 items PNone).
  { exists d2. repeat split; try assumption. simpl. now rewrite Hcur2. }
  eexists.
  exists {| g_self := self; g_path := path; g_page_data_attr := page_data_attr;
            g_params := params; g_kwargs := kwargs; g_pc := Returned |}.
  split; [now apply get_paged_generator|].
  split; [reflexivity|]. split; [|split].
  - intros fuel Hfuel. split.
    + apply (drain_more_fuel net1 (run_fuel [items])); [|simpl; lia].
      exact (drain_last net1 self path page_data_attr kwargs params w w1 r1 items
               Hget1 Hpage1).
    + apply (drain_more_fuel net2 (run_fuel [items])); [|simpl; lia].
      exact (drain_last net2 self path page_data_attr kwargs params w w2 r2 items
               Hget2 Hpage2).
  - destruct (get_ok_log _ _ _ _ _ _ _ Hget1) as (req & ->).
    rewrite length_app. simpl. lia.
  - destruct (get_ok_log _ _ _ _ _ _ _ Hget2) as (req & ->).
    rewrite length_app. simpl. lia.
Qed.

Lemma absent_cursor_same_as_null_witness :
  exists g g',
    get_paged client "cve-id" "cve_ids" [] [] = Ok g
    /\ drain one_page_no_cursor 4 g []
       = Some ([cve "CVE-2021-0001"; cve "CVE-2021-0002"], None, g', [list_request []])
    /\ drain one_page_null_cursor 4 g []
       = Some ([cve "CVE-2021-0001"; cve "CVE-2021-0002"], None, g', [list_request []]).
Proof.
  destruct (absent_cursor_same_as_null one_page_no_cursor one_page_null_cursor
              client "cve-id" "cve_ids" [] [] [] [list_request []] [list_request []]
              (page [cve "CVE-2021-0001"; cve "CVE-2021-0002"] None)
              (page [cve "CVE-2021-0001"; cve "CVE-2021-0002"] (Some PNone))
              [("cve_ids", PList [cve "CVE-2021-0001"; cve "CVE-2021-0002"])]
              [("cve_ids", PList [cve "CVE-2021-0001"; cve "CVE-2021-0002"]);
               ("nextPage", PNone)]
              [cve "CVE-2021-0001"; cve "CVE-2021-0002"]
              eq_refl eq_refl eq_refl eq_refl eq_refl eq_refl eq_refl eq_refl eq_refl)
    as (g & g' & Hg & _ & Hdrain & _).
  exists g, g'. split; [exact Hg|].
  apply Hdrain. simpl. lia.
Defined.

(** C10: when a page is an object without the named field, the lookup
    raises [KeyError] at that page: going through the generator gives the
    items of the pages before it and then ends with that exception; the
    page is neither taken as empty nor as the last one. *)
Theorem missing_field_raises_key_error (net : Network) (self : Idr)
  (path page_data_attr : string) (params kwargs : dict) (w : World)
  (pages : list (list pyval)) (params' : dict) (w' : World)
  (r : Response) (d : dict) (w'' : World) :
  kwargs_free ["self"; "path"; "page_data_attr"; "params"] kwargs = true ->
  follows net self path page_data_attr kwargs params w pages params' w' ->
  get net self path (("params", PDict params') :: kwargs) w' = (Ok r, w'') ->
  json r = Some (PDict d) ->
  dict_get d page_data_attr = None ->
  exists g g',
    get_paged self path page_data_attr params kwargs = Ok g
    /\ g_pc g' = Returned
    /\ (forall fuel, (run_fuel pages + 1 <= fuel)%nat ->
        drain net fuel g w
          = Some (List.concat pages, Some (KeyError page_data_attr), g', w'')).
Proof.
  intros Hkw Hpages Hget Hjson Hattr.
  eexists.
  exists {| g_self := self; g_path := path; g_page_data_attr := page_data_attr;
            g_params := params'; g_kwargs := kwargs; g_pc := Returned |}.
  split; [now apply get_paged_generator|].
  split; [reflexivity|].
  intros fuel Hfuel.
  apply (drain_more_fuel net (run_fuel pages + 1)); [|assumption].
  rewrite <- (app_nil_r (List.concat pages)).
  apply (drain_follows net self path page_data_attr kwargs _ _ _ _ _ Hpages).
  cbn [drain].
  rewrite (step_fetch_no_field net self path page_data_attr kwargs params' w' w''
             r (PDict d) (KeyError page_data_attr) Hget Hjson); [reflexivity|].
  simpl. now rewrite Hattr.
Qed.

Lemma missing_field_raises_key_error_witness :
  exists g g',
    get_paged client "cve-id" "cve_ids" [] [] = Ok g
    /\ drain second_page_broken 10 g []
       = Some ([cve "CVE-2021-0001"; cve "CVE-2021-0002"],
               Some (KeyError "cve_ids"), g',
               [list_request []; list_request [("page", PInt 2)]]).
Proof.
  assert (Hpages :
    follows second_page_broken client "cve-id" "cve_ids" [] [] []
      [[cve "CVE-2021-0001"; cve "CVE-2021-0002"]]
      [("page", PInt 2)] [list_request []]).
  { apply follows_cons
      with (r := page [cve "CVE-2021-0001"; cve "CVE-2021-0002"] (Some (PInt 2)))
           (cursor := PInt 2) (w1 := [list_request []]);
      [reflexivity
      |eexists; repeat split; reflexivity
      |discriminate|].
    apply follows_nil. }
  destruct (missing_field_raises_key_error second_page_broken client "cve-id" "cve_ids"
              [] [] []
              [[cve "CVE-2021-0001"; cve "CVE-2021-0002"]]
              [("page", PInt 2)] [list_request []]
              (json_response 200 "OK" (PDict [("nextPage", PNone)]))
              [("nextPage", PNone)]
              [list_request []; list_request [("page", PInt 2)]]
              eq_refl Hpages eq_refl eq_refl eq_refl)
    as (g & g' & Hg & _ & Hdrain).
  exists g, g'. split; [exact Hg|].
  apply Hdrain. simpl. lia.
Defined.

(** A body that is not an object at all fails at the same lookup, with
    the [TypeError] of the subscript. *)
Lemma non_object_page_raises (net : Network) (self : Idr)
  (path page_data_attr : string) (params kwargs : dict) (w w1 : World)
  (r : Response) (page : pyval) :
  get net self path (("params", PDict params) :: kwargs) w = (Ok r, w1) ->
  json r = Some page ->
  (forall d, page <> PDict d) ->
  exists msg,
    gen_step net {| g_self := self; g_path := path;
                    g_page_data_attr := page_data_attr; g_params := params;
                    g_kwargs := kwargs; g_pc := LoopHead |} w
    = (Throw (TypeError msg),
       {| g_self := self; g_path := path; g_page_data_attr := page_data_attr;
          g_params := params; g_kwargs := kwargs; g_pc := Returned |}, w1).
Proof.
  intros Hget Hjson Hnd.
  destruct page; try (eexists; apply (step_fetch_no_field net self path page_data_attr
    kwargs params w w1 r _ _ Hget Hjson); reflexivity).
  now destruct (Hnd d).
Qed.

(** ** The parameters of [list_cves] *)





(** The state filter of the specification. *)
Example state_active_is_upper_cased :
  exists g,
    list_cves client PNone (Some "active") None None = Ok g
    /\ g_params g = [("state", PStr "ACTIVE")].
Proof. eexists. split; reflexivity. Qed.

(** ** Laziness *)

Lemma fetches_needed_0 (pages : list (list pyval)) : fetches_needed 0 pages = O.
Proof. destruct pages; reflexivity. Qed.

(** The page after the first [k] is not among the pages fetched as long
    as the consumer has asked for no more than the items of these [k]. *)
Lemma fetches_needed_bound (pages : list (list pyval)) :
  forall n k,
    (n <= List.length (List.concat (List.firstn k pages)))%nat ->
    (fetches_needed n pages <= k)%nat.
Proof.
  induction pages as [|items rest IH]; intros n k H; [simpl; lia|].
  destruct n as [|n]; [simpl; lia|].
  destruct k as [|k]; [simpl in H; lia|].
  cbn [fetches_needed]. apply le_n_S. apply IH.
  cbn [List.firstn List.concat] in H. rewrite length_app in H. lia.
Qed.

Section Laziness.

Variable net : Network.
Variables (self : Idr) (path attr : string) (kwargs : dict).

Local Abbreviation G params pc :=
  {| g_self := self; g_path := path; g_page_data_attr := attr;
     g_params := params; g_kwargs := kwargs; g_pc := pc |}.

Lemma gen_next_more_fuel (fuel fuel' : nat) (g : generator) (w : World)
  (out : next_out * generator * World) :
  gen_next net fuel g w = Some out -> (fuel <= fuel')%nat ->
  gen_next net fuel' g w = Some out.
Proof.
  revert fuel' g w.
  induction fuel as [|fuel IH]; intros fuel' g w H Hle; [discriminate|].
  destruct fuel' as [|fuel']; [lia|].
  simpl in *. destruct (gen_step net g w) as [[[v| | |e] g1] w1]; auto.
  apply IH; [assumption|lia].
Qed.

Lemma take_more_fuel (fuel fuel' : nat) (n : nat) :
  (fuel <= fuel')%nat ->
  forall g w out,
    take net fuel n g w = Some out -> take net fuel' n g w = Some out.
Proof.
  intros Hle. induction n as [|n IH]; intros g w out H; [exact H|].
  cbn [take] in *.
  destruct (gen_next net fuel g w) as [[[o g1] w1]|] eqn:E; [|discriminate].
  rewrite (gen_next_more_fuel _ _ _ _ _ E Hle).
  destruct o; try assumption.
  destruct (take net fuel n g1 w1) as [[[items g2] w2]|] eqn:E2; [|discriminate].
  now rewrite (IH _ _ _ E2).
Qed.

(** A stretch that yields nothing is not seen by the consumer. *)
Lemma take_tau (fuel n : nat) (g g1 : generator) (w w1 : World)
  (out : list pyval * generator * World) :
  gen_step net g w = (Tau, g1, w1) ->
  take net fuel (S n) g1 w1 = Some out ->
  take net (S fuel) (S n) g w = Some out.
Proof.
  intros Hstep H. cbn [take gen_next]. rewrite Hstep.
  cbn [take] in H.
  destruct (gen_next net fuel g1 w1) as [[[o g2] w2]|] eqn:E; [|discriminate].
  destruct o; try assumption.
  destruct (take net fuel n g2 w2) as [[[items g3] w3]|] eqn:E2; [|discriminate].
  rewrite (take_more_fuel fuel (S fuel) n (Nat.le_succ_diag_r fuel) _ _ _ E2).
  assumption.
Qed.

(** Asking in two rounds is asking once for the sum, when the first
    round got all it asked for. *)
Lemma take_app (fuel n2 : nat) :
  forall n1 g w l1 g1 w1 l2 g2 w2,
    take net fuel n1 g w = Some (l1, g1, w1) ->
    List.length l1 = n1 ->
    take net fuel n2 g1 w1 = Some (l2, g2, w2) ->
    take net fuel (n1 + n2) g w = Some (l1 ++ l2, g2, w2).
Proof.
  induction n1 as [|n1 IH]; intros g w l1 g1 w1 l2 g2 w2 H1 Hlen H2.
  - cbn [take] in H1. injection H1 as <- <- <-. exact H2.
  - cbn [take Nat.add] in *.
    destruct (gen_next net fuel g w) as [[[o ga] wa]|]; [|discriminate].
    destruct o as [v| |e];
      try (injection H1 as <- _ _; discriminate).
    destruct (take net fuel n1 ga wa) as [[[items gb] wb]|] eqn:E; [|discriminate].
    injection H1 as <- <- <-. cbn [List.length] in Hlen.
    rewrite (IH ga wa items gb wb l2 g2 w2 E); [reflexivity|lia|assumption].
Qed.

(** Items already fetched are handed over without any request. *)
Lemma take_pending (fuel : nat) (params : dict) (page : pyval) (w : World) :
  forall pending n,
    (n <= List.length pending)%nat ->
    take net (S fuel) n (G params (YieldFrom pending page)) w
      = Some (List.firstn n pending,
              G params (YieldFrom (List.skipn n pending) page), w).
Proof.
  induction pending as [|x pending IH]; intros n Hn.
  - destruct n; [reflexivity|simpl in Hn; lia].
  - destruct n as [|n]; [reflexivity|].
    cbn [take gen_next]. rewrite step_emit.
    rewrite IH; [reflexivity|simpl in Hn; lia].
Qed.

(** On the last page, asking for more than is left ends the iteration
    without any request. *)
Lemma take_last_pending (fuel : nat) (params : dict) (page : pyval) (w : World) :
  get_method page "nextPage" = Ok PNone ->
  forall pending n,
    exists gn,
      take net (S fuel) n (G params (YieldFrom pending page)) w
        = Some (List.firstn n pending, gn, w).
Proof.
  intros Hcur. induction pending as [|x pending IH]; intros n.
  - destruct n as [|n]; [eexists; reflexivity|].
    cbn [take gen_next]. rewrite (step_last net self path attr kwargs params page w Hcur).
    eexists. reflexivity.
  - destruct n as [|n]; [eexists; reflexivity|].
    cbn [take gen_next]. rewrite step_emit.
    destruct (IH n) as (gn & ->). eexists. reflexivity.
Qed.

(** Whatever the server does after the pages [pages], a consumer that
    asks for no more items than they hold gets the first of them, for the
    fetches these need: this also holds of a run that never ends. *)
Lemma take_prefix (params params' : dict) (w w' : World) (pages : list (list pyval)) :
  follows net self path attr kwargs params w pages params' w' ->
  forall n fuel,
    (n <= List.length (List.concat pages))%nat ->
    (2 * List.length pages + 1 <= fuel)%nat ->
    exists gn wn,
      take net fuel n (G params LoopHead) w
        = Some (List.firstn n (List.concat pages), gn, wn)
      /\ List.length wn = (List.length w + fetches_needed n pages)%nat.
Proof.
  induction 1 as [|params w r0 items cursor w1 rest params' w' Hget0 Hpage Hc _ IH];
    intros n fuel Hn Hfuel.
  - destruct n as [|n]; [|simpl in Hn; lia].
    exists (G params LoopHead), w. split; [reflexivity|]. simpl. lia.
  - destruct n as [|n].
    { exists (G params LoopHead), w. split; [reflexivity|]. simpl. lia. }
    destruct Hpage as (d & Hjson & Hattr & Hcur).
    destruct fuel as [|[|fuel]]; try (simpl in Hfuel; lia).
    destruct (get_ok_log _ _ _ _ _ _ _ Hget0) as (req & Hw1).
    cbn [List.concat fetches_needed] in *. rewrite length_app in Hn.
    destruct (Nat.le_gt_cases (S n) (List.length items)) as [Hle|Hgt].
    + exists (G params (YieldFrom (List.skipn (S n) items) (PDict d))), w1. split.
      * apply (take_tau _ _ _ _ _ _ _
                 (step_fetch net self path attr kwargs params w w1 r0 d items
                    Hget0 Hjson Hattr)).
        rewrite (take_pending fuel params (PDict d) w1 items (S n) Hle).
        rewrite firstn_app.
        replace (S n - List.length items)%nat with O by lia.
        cbn [List.firstn]. now rewrite app_nil_r.
      * replace (S n - List.length items)%nat with O by lia.
        rewrite fetches_needed_0. subst w1. rewrite length_app. simpl. lia.
    + destruct (S n - List.length items)%nat as [|k] eqn:Ek; [lia|].
      destruct (IH (S k) fuel) as (gn & wn & Htake & Hlog);
        [lia|simpl in Hfuel; lia|].
      exists gn, wn. split.
      * apply (take_tau _ _ _ _ _ _ _
                 (step_fetch net self path attr kwargs params w w1 r0 d items
                    Hget0 Hjson Hattr)).
        replace (S n) with (List.length items + S k)%nat by lia.
        rewrite firstn_app.
        replace (List.length items + S k - List.length items)%nat with (S k) by lia.
        rewrite firstn_all2 by lia.
        apply (take_app (S fuel) (S k) (List.length items) _ _ items
                 (G params (YieldFrom [] (PDict d))) w1).
        -- pose proof (take_pending fuel params (PDict d) w1 items (List.length items)
                         (Nat.le_refl _)) as Hp.
           rewrite firstn_all, skipn_all in Hp. exact Hp.
        -- reflexivity.
        -- apply (take_tau _ _ _ _ _ _ _
                    (step_more net self path attr kwargs params (PDict d) cursor w1
                       Hcur Hc)).
           exact Htake.
      * rewrite Hlog. subst w1. rewrite length_app. simpl. lia.
Qed.

Variables (params' : dict) (w' w'' : World) (r : Response) (last : list pyval).
Hypothesis Hget : get net self path (("params", PDict params') :: kwargs) w' = (Ok r, w'').
Hypothesis Hlast : is_page attr r last PNone.

(** A consumer that asks for [n] items gets the first [n] of the run
    (all of them when there are fewer), and the log has grown by the pages
    needed for them and no more. *)
Lemma take_run (params : dict) (w : World) (pages : list (list pyval)) :
  follows net self path attr kwargs params w pages params' w' ->
  forall n fuel,
    (2 * List.length pages + 3 <= fuel)%nat ->
    exists gn wn,
      take net fuel n (G params LoopHead) w
        = Some (List.firstn n (List.concat (pages ++ [last])), gn, wn)
      /\ List.length wn = (List.length w + fetches_needed n (pages ++ [last]))%nat.
Proof.
  induction 1 as [|params w r0 items cursor w1 rest params' w' Hget0 Hpage Hc _ IH];
    intros n fuel Hfuel.
  - (* the last page *)
    destruct n as [|n].
    { exists (G params LoopHead), w. split; [reflexivity|]. simpl. lia. }
    destruct Hlast as (d & Hjson & Hattr & Hcur).
    destruct fuel as [|[|fuel]]; try lia.
    destruct (take_last_pending fuel params (PDict d) w'' Hcur last (S n)) as (gn & Htake).
    exists gn, w''. split.
    + cbn [app List.concat]. rewrite app_nil_r.
      apply (take_tau _ _ _ _ _ _ _
               (step_fetch net self path attr kwargs params w w'' r d last
                  Hget Hjson Hattr)).
      exact Htake.
    + destruct (get_ok_log _ _ _ _ _ _ _ Hget) as (req & ->).
      rewrite length_app. cbn [app fetches_needed List.length]. lia.
  - (* a page with a successor *)
    specialize (IH Hget).
    destruct n as [|n].
    { exists (G params LoopHead), w. split; [reflexivity|]. simpl. lia. }
    destruct Hpage as (d & Hjson & Hattr & Hcur).
    destruct fuel as [|[|fuel]]; try (simpl in Hfuel; lia).
    destruct (get_ok_log _ _ _ _ _ _ _ Hget0) as (req & Hw1).
    cbn [app List.concat fetches_needed].
    destruct (Nat.le_gt_cases (S n) (List.length items)) as [Hle|Hgt].
    + (* the items of this page are enough *)
      exists (G params (YieldFrom (List.skipn (S n) items) (PDict d))), w1. split.
      * apply (take_tau _ _ _ _ _ _ _
                 (step_fetch net self path attr kwargs params w w1 r0 d items
                    Hget0 Hjson Hattr)).
        rewrite (take_pending fuel params (PDict d) w1 items (S n) Hle).
        rewrite firstn_app.
        replace (S n - List.length items)%nat with O by lia.
        cbn [List.firstn]. now rewrite app_nil_r.
      * replace (S n - List.length items)%nat with O by lia.
        rewrite fetches_needed_0. subst w1. rewrite length_app. simpl. lia.
    + (* more is asked for than this page holds *)
      destruct (S n - List.length items)%nat as [|k] eqn:Ek; [lia|].
      destruct (IH (S k) fuel) as (gn & wn & Htake & Hlog);
        [simpl in Hfuel; lia|].
      exists gn, wn. split.
      * apply (take_tau _ _ _ _ _ _ _
                 (step_fetch net self path attr kwargs params w w1 r0 d items
                    Hget0 Hjson Hattr)).
        replace (S n) with (List.length items + S k)%nat by lia.
        rewrite firstn_app.
        replace (List.length items + S k - List.length items)%nat with (S k) by lia.
        rewrite firstn_all2 by lia.
        apply (take_app (S fuel) (S k) (List.length items) _ _ items
                 (G params (YieldFrom [] (PDict d))) w1).
        -- pose proof (take_pending fuel params (PDict d) w1 items (List.length items)
                         (Nat.le_refl _)) as Hp.
           rewrite firstn_all, skipn_all in Hp. exact Hp.
        -- reflexivity.
        -- apply (take_tau _ _ _ _ _ _ _
                    (step_more net self path attr kwargs params (PDict d) cursor w1
                       Hcur Hc)).
           exact Htake.
      * rewrite Hlog. subst w1. rewrite length_app. simpl. lia.
Qed.

End Laziness.

(** C9: the generator fetches on demand.  Creating it sends nothing, and
    a consumer that asks for [n] items and then stops gets the first [n]
    items of the run while the log grows by exactly the pages needed for
    them: the page after the first [k] is not fetched as long as no more
    than the items of these [k] pages have been asked for, and nothing is
    fetched after the consumer has stopped. *)
Theorem get_paged_is_lazy (net : Network) (self : Idr)
  (path page_data_attr : string) (params kwargs : dict) (w : World)
  (pages : list (list pyval)) (params' : dict) (w' : World)
  (r : Response) (items : list pyval) (w'' : World) :
  kwargs_free ["self"; "path"; "page_data_attr"; "params"] kwargs = true ->
  follows net self path page_data_attr kwargs params w pages params' w' ->
  get net self path (("params", PDict params') :: kwargs) w' = (Ok r, w'') ->
  is_page page_data_attr r items PNone ->
  exists g,
    get_paged self path page_data_attr params kwargs = Ok g
    /\ forall n fuel,
         (2 * List.length pages + 3 <= fuel)%nat ->
         exists gn wn,
           take net fuel n g w
             = Some (List.firstn n (List.concat (pages ++ [items])), gn, wn)
           /\ List.length wn
              = (List.length w + fetches_needed n (pages ++ [items]))%nat
           /\ (n = O -> wn = w)
           /\ (forall k,
                 (n <= List.length (List.concat (List.firstn k (pages ++ [items]))))%nat ->
                 (List.length wn <= List.length w + k)%nat).
Proof.
  intros Hkw Hpages Hget Hlast.
  eexists. split; [now apply get_paged_generator|].
  intros n fuel Hfuel.
  destruct (take_run net self path page_data_attr kwargs params' w' w'' r items
              Hget Hlast params w pages Hpages n fuel Hfuel)
    as (gn & wn & Htake & Hlog).
  exists gn, wn. split; [exact Htake|]. split; [exact Hlog|]. split.
  - intros ->. cbn [take] in Htake. now inversion Htake.
  - intros k Hk. rewrite Hlog.
    pose proof (fetches_needed_bound _ _ _ Hk). lia.
Qed.

(** On the server with three pages, a consumer that stops after three
    items has made the generator fetch two pages, and the third page was
    never asked for. *)
Lemma get_paged_is_lazy_witness :
  exists g gn wn,
    get_paged client "cve-id" "cve_ids" [] [] = Ok g
    /\ take three_pages 7 3 g []
       = Some ([cve "CVE-2021-0001"; cve "CVE-2021-0002"; cve "CVE-2021-0003"], gn, wn)
    /\ List.length wn = 2%nat.
Proof.
  destruct (get_paged_is_lazy three_pages client "cve-id" "cve_ids" [] [] []
              [[cve "CVE-2021-0001"; cve "CVE-2021-0002"];
               [cve "CVE-2021-0003"; cve "CVE-2021-0004"]]
              [("page", PInt 3)]
              [list_request []; list_request [("page", PInt 2)]]
              (page [cve "CVE-2021-0005"] (Some PNone)) [cve "CVE-2021-0005"]
              [list_request []; list_request [("page", PInt 2)];
               list_request [("page", PInt 3)]]
              eq_refl three_pages_follows eq_refl three_pages_last)
    as (g & Hg & Htake).
  destruct (Htake 3%nat 7%nat) as (gn & wn & H1 & H2 & _); [simpl; lia|].
  exists g, gn, wn. split; [exact Hg|]. split; [exact H1|exact H2].
Defined.

Example three_pages_take_three :
  match get_paged client "cve-id" "cve_ids" [] [] with
  | Ok g =>
      match take three_pages 7 3 g [] with
      | Some (items, _, log) =>
          items = [cve "CVE-2021-0001"; cve "CVE-2021-0002"; cve "CVE-2021-0003"]
          /\ log = [list_request []; list_request [("page", PInt 2)]]
      | None => False
      end
  | Raise _ => False
  end.
Proof. split; reflexivity. Qed.

(** ** Joining a path against the base URL *)

Lemma append_assoc (a b c : string) : (a +++ b) +++ c = a +++ (b +++ c).
Proof. induction a as [|x a IH]; simpl; [reflexivity|now rewrite IH]. Qed.

Lemma append_nil_r (a : string) : a +++ EmptyString = a.
Proof. induction a as [|x a IH]; simpl; [reflexivity|now rewrite IH]. Qed.

Section StringFacts.

Variables (p q : ascii -> bool).

Lemma remove_app (a b : string) :
  PyStr.remove p (a +++ b) = PyStr.remove p a +++ PyStr.remove p b.
Proof.
  induction a as [|x a IH]; simpl; [reflexivity|].
  destruct (p x); simpl; now rewrite IH.
Qed.

Lemma forallb_remove (s : string) :
  PyStr.forallb (fun c => negb (p c)) (PyStr.remove p s) = true.
Proof.
  induction s as [|x s IH]; simpl; [reflexivity|].
  destruct (p x) eqn:E; simpl; [assumption|]. now rewrite E.
Qed.

Lemma remove_id (s : string) :
  PyStr.forallb (fun c => negb (p c)) s = true -> PyStr.remove p s = s.
Proof.
  induction s as [|x s IH]; simpl; [reflexivity|].
  intros H. apply andb_true_iff in H as [Hx Hs].
  apply negb_true_iff in Hx. rewrite Hx. now rewrite IH.
Qed.

Lemma split_once_forallb (c : ascii) (s l r : string) :
  PyStr.split_once c s = Some (l, r) ->
  PyStr.forallb q s = true ->
  PyStr.forallb q l = true /\ PyStr.forallb q r = true.
Proof.
  revert l r. induction s as [|x s IH]; simpl; intros l r H Hq; [discriminate|].
  apply andb_true_iff in Hq as [Hx Hs].
  destruct (Ascii.eqb x c).
  - injection H as <- <-. now split.
  - destruct (PyStr.split_once c s) as [[l' r']|]; [|discriminate].
    injection H as <- <-. destruct (IH l' r' eq_refl Hs) as [Hl Hr].
    split; [simpl; now rewrite Hx|assumption].
Qed.

(** The text before the first [p] character has no [p] character, and
    keeps what holds of every character. *)
Lemma span_until_fst (s : string) :
  PyStr.forallb (fun c => negb (p c)) (fst (PyStr.span_until p s)) = true
  /\ (PyStr.forallb q s = true ->
      PyStr.forallb q (fst (PyStr.span_until p s)) = true).
Proof.
  induction s as [|x s [IH1 IH2]]; simpl; [now split|].
  destruct (p x) eqn:E; [now split|].
  destruct (PyStr.span_until p s) as [l r]. simpl in *. rewrite E. split.
  - assumption.
  - intros H. apply andb_true_iff in H as [Hx Hs]. rewrite Hx. now apply IH2.
Qed.

(** A text without a [p] character, followed by nothing or by a [p]
    character, is cut right after it. *)
Lemma span_until_app (a b : string) :
  PyStr.forallb (fun c => negb (p c)) a = true ->
  (b = EmptyString \/ exists c b', b = String c b' /\ p c = true) ->
  PyStr.span_until p (a +++ b) = (a, b).
Proof.
  intros Ha Hb. induction a as [|x a IH]; simpl.
  - destruct Hb as [-> | (c & b' & -> & Hc)]; simpl; [reflexivity|now rewrite Hc].
  - simpl in Ha. apply andb_true_iff in Ha as [Hx Ha].
    apply negb_true_iff in Hx. rewrite Hx. now rewrite (IH Ha).
Qed.

End StringFacts.

Lemma starts_with_slash (s : string) :
  PyStr.starts_with "/" s = true -> exists r, s = String "/" r.
Proof.
  destruct s as [|c r]; cbn [PyStr.starts_with]; [discriminate|].
  rewrite andb_true_r. intros H. apply Ascii.eqb_eq in H. subst c. now exists r.
Qed.

Lemma urlsplit_netloc_wf (url scheme : string) (sr : SplitResult) :
  urlsplit url scheme = Ok sr ->
  PyStr.forallb (fun c => negb (is_netloc_delim c)) (sr_netloc sr) = true
  /\ PyStr.forallb (fun c => negb (is_unsafe c)) (sr_netloc sr) = true
  /\ bad_brackets (sr_netloc sr) = false.
Proof.
  unfold urlsplit.
  assert (Hc : PyStr.forallb (fun c => negb (is_unsafe c)) (clean_url url) = true)
    by apply forallb_remove.
  destruct (split_scheme (clean_url url) (clean_scheme scheme)) as [s1 u1] eqn:E1.
  assert (Hu1 : PyStr.forallb (fun c => negb (is_unsafe c)) u1 = true).
  { unfold split_scheme in E1.
    destruct (PyStr.split_once ":" (clean_url url)) as [[pre rest]|] eqn:Es.
    - destruct (_ && _)%bool; injection E1 as <- <-; [|exact Hc].
      apply (split_once_forallb _ _ _ _ _ Es Hc).
    - now injection E1 as <- <-. }
  assert (Hnl : forall nl u2,
             (if PyStr.starts_with "//" u1 then splitnetloc2 u1 else (EmptyString, u1))
             = (nl, u2) ->
             PyStr.forallb (fun c => negb (is_netloc_delim c)) nl = true
             /\ PyStr.forallb (fun c => negb (is_unsafe c)) nl = true).
  { intros nl u2 H. destruct (PyStr.starts_with "//" u1).
    - unfold splitnetloc2 in H. destruct u1 as [|a [|b rest]];
        try (injection H as <- <-; now split).
      pose proof (span_until_fst is_netloc_delim (fun c => negb (is_unsafe c)) rest)
        as [H1 H2].
      rewrite H in *. simpl in *. split; [exact H1|].
      apply H2. simpl in Hu1. repeat (apply andb_true_iff in Hu1 as [_ Hu1]). exact Hu1.
    - injection H as <- <-. now split. }
  destruct (if PyStr.starts_with "//" u1 then _ else _) as [nl u2] eqn:E2.
  destruct (Hnl nl u2 eq_refl) as [H1 H2].
  destruct (bad_brackets nl) eqn:Eb; [discriminate|].
  destruct (match PyStr.split_once "#" u2 with Some _ => _ | None => _ end) as [u3 fr].
  destruct (match PyStr.split_once "?" u3 with Some _ => _ | None => _ end) as [u4 qu].
  intros H. injection H as <-. simpl. auto.
Qed.

Lemma urlparse_urlsplit (url scheme : string) (p : ParseResult) :
  urlparse url scheme = Ok p ->
  exists sr, urlsplit url scheme = Ok sr
             /\ pr_scheme p = sr_scheme sr /\ pr_netloc p = sr_netloc sr.
Proof.
  unfold urlparse. destruct (urlsplit url scheme) as [sr|]; [|discriminate].
  destruct (if (_ && _)%bool then _ else _) as [path params].
  intros H. injection H as <-. exists sr. auto.
Qed.

(** [urlsplit] on a URL that starts with the scheme [s] and [://]: the
    cleaning and the scheme are computed, and the host is cut with
    [Hspan]. *)
Ltac split_known_scheme s netloc T Hspan Hb :=
  change (clean_url (s +++ "://" +++ netloc +++ T))
    with (s +++ "://" +++ PyStr.remove is_unsafe (netloc +++ T));
  change (split_scheme (s +++ "://" +++ PyStr.remove is_unsafe (netloc +++ T))
            (clean_scheme EmptyString))
    with (s, "//" +++ PyStr.remove is_unsafe (netloc +++ T));
  cbv iota beta;
  change (PyStr.starts_with "//" ("//" +++ PyStr.remove is_unsafe (netloc +++ T)))
    with true;
  cbv iota;
  change (splitnetloc2 ("//" +++ PyStr.remove is_unsafe (netloc +++ T)))
    with (PyStr.span_until is_netloc_delim (PyStr.remove is_unsafe (netloc +++ T)));
  rewrite Hspan; cbv iota beta; rewrite Hb;
  destruct (match PyStr.split_once "#" _ with Some _ => _ | None => _ end) as [u3 fr];
  destruct (match PyStr.split_once "?" u3 with Some _ => _ | None => _ end) as [u4 qu];
  reflexivity.

Lemma netloc_of_unsplit (scheme netloc T : string) :
  scheme = "http" \/ scheme = "https" ->
  PyStr.forallb (fun c => negb (is_netloc_delim c)) netloc = true ->
  PyStr.forallb (fun c => negb (is_unsafe c)) netloc = true ->
  bad_brackets netloc = false ->
  (T = EmptyString \/ exists c T', T = String c T' /\ is_netloc_delim c = true) ->
  url_netloc (scheme +++ "://" +++ netloc +++ T) = Ok netloc.
Proof.
  intros Hs Hd Hu Hb HT.
  assert (Hspan : PyStr.span_until is_netloc_delim
                    (PyStr.remove is_unsafe (netloc +++ T))
                  = (netloc, PyStr.remove is_unsafe T)).
  { rewrite remove_app, (remove_id _ _ Hu).
    apply span_until_app; [exact Hd|].
    destruct HT as [-> | (c & T' & -> & Hc)]; [now left|right].
    exists c, (PyStr.remove is_unsafe T'). split; [|exact Hc].
    cbn [PyStr.remove].
    assert (Hn : is_unsafe c = false).
    { unfold is_netloc_delim in Hc. unfold is_unsafe.
      repeat (apply orb_true_iff in Hc as [Hc|Hc]);
        apply Ascii.eqb_eq in Hc; subst c; reflexivity. }
    now rewrite Hn. }
  unfold url_netloc, urlsplit.
  destruct Hs as [-> | ->].
  - split_known_scheme "http" netloc T Hspan Hb.
  - split_known_scheme "https" netloc T Hspan Hb.
Qed.

Lemma urlunparse_shape (scheme netloc path params query fragment : string) :
  scheme = "http" \/ scheme = "https" ->
  netloc <> EmptyString ->
  exists T,
    urlunparse scheme netloc path params query fragment
      = scheme +++ "://" +++ netloc +++ T
    /\ (T = EmptyString \/ exists c T', T = String c T' /\ is_netloc_delim c = true).
Proof.
  intros Hs Hn. unfold urlunparse, urlunsplit.
  set (P := if PyStr.is_empty params then path else path +++ ";" +++ params).
  set (P' := if (negb (PyStr.is_empty P) && negb (PyStr.starts_with "/" P))%bool
             then "/" +++ P else P).
  set (Q := if PyStr.is_empty query then EmptyString else "?" +++ query).
  set (F := if PyStr.is_empty fragment then EmptyString else "#" +++ fragment).
  assert (Hne : PyStr.is_empty netloc = false) by (destruct netloc; [congruence|reflexivity]).
  assert (Hse : PyStr.is_empty scheme = false) by (destruct Hs as [-> | ->]; reflexivity).
  rewrite Hne, Hse. cbn [negb orb].
  exists (P' +++ Q +++ F). split.
  - transitivity (((scheme +++ ":" +++ "//" +++ netloc +++ P') +++ Q) +++ F).
    + subst Q F. destruct (PyStr.is_empty query), (PyStr.is_empty fragment);
        now rewrite ?append_nil_r.
    + rewrite !append_assoc. reflexivity.
  - assert (HP' : P' = EmptyString \/ exists r, P' = String "/" r).
    { subst P'. destruct (PyStr.is_empty P) eqn:E1; cbn [negb andb].
      - left. now destruct P.
      - destruct (PyStr.starts_with "/" P) eqn:E2; cbn [negb].
        + right. now apply starts_with_slash.
        + right. now exists P. }
    destruct HP' as [-> | (r & ->)].
    + cbn [String.append]. subst Q F.
      destruct (PyStr.is_empty query).
      * cbn [String.append]. destruct (PyStr.is_empty fragment); [now left|].
        right. eexists _, _. split; reflexivity.
      * right. eexists _, _. split; reflexivity.
    + right. eexists _, _. split; reflexivity.
Qed.

(** A reference without a host of its own, and with no scheme but the
    base's, is resolved on the host of the base. *)
Lemma urljoin_same_host (base path : string) (b p : ParseResult) :
  urlparse base EmptyString = Ok b ->
  pr_scheme b = "http" \/ pr_scheme b = "https" ->
  pr_netloc b <> EmptyString ->
  urlparse path (pr_scheme b) = Ok p ->
  pr_scheme p = pr_scheme b ->
  pr_netloc p = EmptyString ->
  exists u, urljoin base path = Ok u /\ url_netloc u = Ok (pr_netloc b).
Proof.
  intros Hb Hs Hn Hp Hps Hpn.
  destruct (urlparse_urlsplit _ _ _ Hb) as (sr & Hsr & _ & Hnl).
  destruct (urlsplit_netloc_wf _ _ _ Hsr) as (Hd & Hu & Hbr).
  rewrite <- Hnl in Hd, Hu, Hbr.
  assert (Hjoined : forall path' params query fragment,
             url_netloc (urlunparse (pr_scheme b) (pr_netloc b) path' params query fragment)
             = Ok (pr_netloc b)).
  { intros path' params query fragment.
    destruct (urlunparse_shape (pr_scheme b) (pr_netloc b) path' params query fragment Hs Hn)
      as (T & -> & HT).
    now apply netloc_of_unsplit. }
  unfold urljoin.
  destruct base as [|c base'].
  { compute in Hb. injection Hb as <-. now destruct Hn. }
  cbn [PyStr.is_empty].
  destruct (PyStr.is_empty path) eqn:Ep.
  { eexists. split; [reflexivity|]. unfold url_netloc. rewrite Hsr. now rewrite Hnl. }
  rewrite Hb, Hp, Hps, String.eqb_refl, Hpn.
  assert (Hrel : mem (pr_scheme b) uses_relative = true)
    by (destruct Hs as [-> | ->]; reflexivity).
  assert (Hnet : mem (pr_scheme b) uses_netloc = true)
    by (destruct Hs as [-> | ->]; reflexivity).
  rewrite Hrel, Hnet. cbn [negb orb andb PyStr.is_empty].
  destruct (PyStr.is_empty (pr_path p) && PyStr.is_empty (pr_params p))%bool;
    eexists; (split; [reflexivity|apply Hjoined]).
Qed.




(** *** The paths of the endpoints *)

(** A path that starts with [cve-id/] or [org/] has no scheme and no
    host, whatever follows: the slash comes before any colon. *)
Lemma split_plain (x scheme pre : string) :
  pre = "cve-id/" \/ pre = "org/" ->
  exists path query fragment,
    urlsplit (pre +++ x) scheme
    = Ok {| sr_scheme := clean_scheme scheme; sr_netloc := EmptyString;
            sr_path := path; sr_query := query; sr_fragment := fragment |}.
Proof.
  intros Hpre. unfold urlsplit.
  assert (Hclean : clean_url (pre +++ x) = pre +++ PyStr.remove is_unsafe x)
    by (destruct Hpre as [-> | ->]; reflexivity).
  rewrite Hclean.
  assert (Hscheme : split_scheme (pre +++ PyStr.remove is_unsafe x) (clean_scheme scheme)
                    = (clean_scheme scheme, pre +++ PyStr.remove is_unsafe x)).
  { unfold split_scheme.
    destruct Hpre as [-> | ->]; cbn [String.append PyStr.split_once Ascii.eqb Bool.eqb].
    all: destruct (PyStr.split_once ":" (PyStr.remove is_unsafe x)) as [[l r]|]; reflexivity. }
  rewrite Hscheme.
  assert (Hslash : PyStr.starts_with "//" (pre +++ PyStr.remove is_unsafe x) = false)
    by (destruct Hpre as [-> | ->]; reflexivity).
  rewrite Hslash. cbn [bad_brackets PyStr.contains andb orb].
  destruct (match PyStr.split_once "#" _ with Some _ => _ | None => _ end) as [u3 fr].
  destruct (match PyStr.split_once "?" u3 with Some _ => _ | None => _ end) as [u4 qu].
  now exists u4, qu, fr.
Qed.

Lemma endpoint_path_plain (x scheme pre : string) :
  scheme = "http" \/ scheme = "https" ->
  pre = "cve-id/" \/ pre = "org/" ->
  exists p,
    urlparse (pre +++ x) scheme = Ok p
    /\ pr_scheme p = scheme /\ pr_netloc p = EmptyString.
Proof.
  intros Hs Hpre. unfold urlparse.
  destruct (split_plain x scheme pre Hpre) as (path & query & fragment & ->).
  cbn [sr_scheme sr_netloc sr_path sr_query sr_fragment].
  destruct (if (_ && _)%bool then _ else _) as [path' params].
  eexists. split; [reflexivity|]. split; [|reflexivity].
  destruct Hs as [-> | ->]; reflexivity.
Qed.

(** X17: [show_cve] builds its path from its argument, and the request
    stays on the host of the base URL whatever the argument is: dots,
    slashes, a query or a fragment in it change the path, never the
    host. *)
Lemma show_cve_stays_on_host (net : Network) (self : Idr) (cve_id : pyval)
  (w : World) (b : ParseResult) :
  urlparse (url self) EmptyString = Ok b ->
  pr_scheme b = "http" \/ pr_scheme b = "https" ->
  pr_netloc b <> EmptyString ->
  exists u,
    url_netloc u = Ok (pr_netloc b)
    /\ snd (show_cve net self cve_id w) = w ++ [sent_request self "get" u []].
Proof.
  intros Hb Hs Hn.
  destruct (endpoint_path_plain (Py.str cve_id) (pr_scheme b) "cve-id/" Hs (or_introl eq_refl))
    as (p & Hp & Hps & Hpn).
  destruct (urljoin_same_host _ _ b p Hb Hs Hn Hp Hps Hpn) as (u & Hu & Hhost).
  exists u. split; [exact Hhost|].
  unfold show_cve. rewrite (get_unfold net self _ [] w eq_refl).
  now apply http_request_log.
Qed.

(** X18: [quota] builds its path from the client's organisation, and
    the request stays on the host of the base URL whatever the
    organisation is. *)
Lemma quota_stays_on_host (net : Network) (self : Idr) (w : World) (b : ParseResult) :
  urlparse (url self) EmptyString = Ok b ->
  pr_scheme b = "http" \/ pr_scheme b = "https" ->
  pr_netloc b <> EmptyString ->
  exists u,
    url_netloc u = Ok (pr_netloc b)
    /\ snd (quota net self w) = w ++ [sent_request self "get" u []].
Proof.
  intros Hb Hs Hn.
  destruct (endpoint_path_plain (org self +++ "/id_quota") (pr_scheme b) "org/" Hs
              (or_intror eq_refl))
    as (p & Hp & Hps & Hpn).
  destruct (urljoin_same_host _ _ b p Hb Hs Hn Hp Hps Hpn) as (u & Hu & Hhost).
  exists u. split; [exact Hhost|].
  unfold quota. rewrite (get_unfold net self _ [] w eq_refl).
  now apply http_request_log.
Qed.

(** The fixed paths, on the two environments. *)
Example fixed_paths_on_prod :
  urljoin "https://cveawg.mitre.org/api/" "cve-id" = Ok "https://cveawg.mitre.org/api/cve-id"
  /\ urljoin "https://cveawg.mitre.org/api/" "health-check"
     = Ok "https://cveawg.mitre.org/api/health-check"
  /\ urljoin "https://cveawg-dev.mitre.org/api/" "cve-id"
     = Ok "https://cveawg-dev.mitre.org/api/cve-id"
  /\ urljoin "https://cveawg-dev.mitre.org/api/" "health-check"
     = Ok "https://cveawg-dev.mitre.org/api/health-check".
Proof. repeat split. Qed.


(* ================================================================== *)
(** * Further properties *)

Import MoreSamples.

(** ** More on [http_request] *)

Lemma check_kwargs_clash (given : list string) (kwargs : dict) :
  kwargs_free given kwargs = false ->
  exists msg, check_kwargs given kwargs = Raise (TypeError msg).
Proof.
  unfold check_kwargs, kwargs_free.
  induction given as [|k given IH]; simpl; intros H; [discriminate|].
  destruct (dict_mem kwargs k); [eexists; reflexivity|].
  now apply IH.
Qed.

Lemma kwargs_free_app (l1 l2 : list string) (kwargs : dict) :
  kwargs_free (l1 ++ l2) kwargs = (kwargs_free l1 kwargs && kwargs_free l2 kwargs)%bool.
Proof. unfold kwargs_free. apply forallb_app. Qed.

(** [urljoin] raises nothing but [ValueError]. *)
Lemma urlsplit_raises (url scheme : string) (e : exn) :
  urlsplit url scheme = Raise e -> e = ValueError "Invalid IPv6 URL".
Proof.
  unfold urlsplit.
  destruct (split_scheme _ _) as [s1 u1].
  destruct (if PyStr.starts_with "//" u1 then _ else _) as [nl u2].
  destruct (bad_brackets nl).
  - intros H. now injection H as <-.
  - destruct (match PyStr.split_once "#" u2 with Some _ => _ | None => _ end) as [u3 fr].
    destruct (match PyStr.split_once "?" u3 with Some _ => _ | None => _ end) as [u4 qu].
    discriminate.
Qed.

Lemma urlparse_raises (url scheme : string) (e : exn) :
  urlparse url scheme = Raise e -> e = ValueError "Invalid IPv6 URL".
Proof.
  unfold urlparse. destruct (urlsplit url scheme) as [sr|e'] eqn:E.
  - destruct (if (_ && _)%bool then _ else _). discriminate.
  - intros H. injection H as <-. now apply urlsplit_raises in E.
Qed.

Lemma urljoin_raises (base url : string) (e : exn) :
  urljoin base url = Raise e -> e = ValueError "Invalid IPv6 URL".
Proof.
  unfold urljoin.
  destruct (PyStr.is_empty base); [discriminate|].
  destruct (PyStr.is_empty url); [discriminate|].
  destruct (urlparse base EmptyString) as [b|e1] eqn:E1.
  - destruct (urlparse url (pr_scheme b)) as [u|e2] eqn:E2.
    + destruct (_ || _)%bool; [discriminate|].
      destruct (_ && _)%bool; [discriminate|].
      destruct (_ && _)%bool; discriminate.
    + intros H. injection H as <-. now apply urlparse_raises in E2.
  - intros H. injection H as <-. now apply urlparse_raises in E1.
Qed.

Lemma raise_for_status_some (r : Response) (exc : RequestException) :
  raise_for_status r = Some exc ->
  400 <= status_code r < 600 /\ exc_str exc = status_line r.
Proof.
  intros H.
  destruct (Z_lt_ge_dec (status_code r) 400) as [Hlo|Hlo].
  { rewrite raise_for_status_fine in H by lia. discriminate. }
  destruct (Z_lt_ge_dec (status_code r) 600) as [Hhi|Hhi].
  - split; [lia|]. rewrite raise_for_status_error in H by lia.
    now injection H as <-.
  - rewrite raise_for_status_fine in H by lia. discriminate.
Qed.

(** What a call of [http_request] can come to: the arguments are refused
    and nothing is sent, or one request is sent and its outcome is
    handled. *)
Lemma http_request_cases (net : Network) (self : Idr) (method path : string)
  (kwargs : dict) (w : World) :
  (exists e, http_request net self method path kwargs w = (Raise e, w)
             /\ is_IdrException e = false
             /\ ((passable kwargs = false /\ exists msg, e = TypeError msg)
                 \/ urljoin (url self) path = Raise e))
  \/ (exists u, passable kwargs = true /\ urljoin (url self) path = Ok u).
Proof.
  destruct (kwargs_free ["self"; "method"; "path"] kwargs) eqn:E1.
  - destruct (urljoin (url self) path) as [u|e] eqn:Ej.
    + destruct (kwargs_free ["method"; "url"; "timeout"; "headers"] kwargs) eqn:E2.
      * right. exists u. split; [|reflexivity].
        unfold passable, kwargs_free in *. simpl in *.
        repeat (apply andb_true_iff in E1 as [? E1]).
        repeat (apply andb_true_iff in E2 as [? E2]).
        repeat (apply andb_true_iff; split); auto.
      * left. destruct (check_kwargs_clash _ _ E2) as (msg & Hc).
        exists (TypeError msg). split; [|split; [reflexivity|]].
        -- unfold http_request.
           rewrite (bind_lift_ok _ _ _ tt (check_kwargs_ok _ _ E1)).
           rewrite (bind_lift_ok _ _ _ u Ej).
           unfold bind, lift. now rewrite Hc.
        -- left. split; [|now exists msg].
           unfold passable, kwargs_free in *. simpl in *.
           repeat (apply andb_true_iff in E1 as [? E1]).
           destruct (dict_mem kwargs "self"), (dict_mem kwargs "method"),
             (dict_mem kwargs "path"); simpl in *; try discriminate.
           destruct (dict_mem kwargs "url"), (dict_mem kwargs "timeout"),
             (dict_mem kwargs "headers"); simpl in *; try discriminate; reflexivity.
    + left. exists e. split; [|split].
      * unfold http_request.
        rewrite (bind_lift_ok _ _ _ tt (check_kwargs_ok _ _ E1)).
        unfold bind, lift. now rewrite Ej.
      * now rewrite (urljoin_raises _ _ _ Ej).
      * now right.
  - left. destruct (check_kwargs_clash _ _ E1) as (msg & Hc).
    exists (TypeError msg). split; [|split; [reflexivity|]].
    + unfold http_request, bind, lift. now rewrite Hc.
    + left. split; [|now exists msg].
      unfold passable, kwargs_free in *. simpl in *.
      destruct (dict_mem kwargs "self"), (dict_mem kwargs "method"),
        (dict_mem kwargs "path"); simpl in *; try discriminate; reflexivity.
Qed.

(** X1: a call of [http_request] whose arguments are accepted
    sends exactly one request, whatever comes back: with the method given,
    the joined URL, a timeout of 60, the three authentication headers of
    the client and the caller's options as they were passed.  [get] and
    [post] do the same with their method. *)
Theorem one_authenticated_request (net : Network) (self : Idr)
  (method path : string) (kwargs : dict) (w : World) (u : string) :
  passable kwargs = true ->
  urljoin (url self) path = Ok u ->
  let sent m :=
    {| rq_method := m; rq_url := u; rq_timeout := 60;
       rq_headers := [("CVE-API-KEY", api_key self);
                      ("CVE-API-ORG", org self);
                      ("CVE-API-USER", username self)];
       rq_kwargs := kwargs |} in
  snd (http_request net self method path kwargs w) = w ++ [sent method]
  /\ snd (get net self path kwargs w) = w ++ [sent "get"]
  /\ snd (post net self path kwargs w) = w ++ [sent "post"].
Proof.
  intros Hkw Hjoin sent. split; [|split].
  - exact (http_request_log net self method path kwargs w u Hkw Hjoin).
  - rewrite (get_unfold net self path kwargs w Hkw).
    exact (http_request_log net self "get" path kwargs w u Hkw Hjoin).
  - rewrite (post_unfold net self path kwargs w Hkw).
    exact (http_request_log net self "post" path kwargs w u Hkw Hjoin).
Qed.

Lemma one_authenticated_request_witness :
  snd (http_request timing_out client "put" "cve-id/CVE-2021-0001"
         [("json", PDict [("state", PStr "PUBLIC")])] [])
  = [] ++ [{| rq_method := "put";
              rq_url := "https://cveawg.mitre.org/api/cve-id/CVE-2021-0001";
              rq_timeout := 60;
              rq_headers := [("CVE-API-KEY", "s3cret"); ("CVE-API-ORG", "acme");
                             ("CVE-API-USER", "alice")];
              rq_kwargs := [("json", PDict [("state", PStr "PUBLIC")])] |}].
Proof.
  apply (one_authenticated_request timing_out client "put" "cve-id/CVE-2021-0001"
           [("json", PDict [("state", PStr "PUBLIC")])] []
           "https://cveawg.mitre.org/api/cve-id/CVE-2021-0001");
    reflexivity.
Defined.

(** X2: an exception that [requests.request] raises (a timeout,
    a refused connection) leaves [http_request] as it is, whether
    [raise_exc] is set or not: the call is outside the [try]. *)
Theorem transport_exception_passes_through (net : Network) (self : Idr)
  (method path : string) (kwargs : dict) (w : World) (u : string) (e : exn) :
  passable kwargs = true ->
  urljoin (url self) path = Ok u ->
  net w (sent_request self method u kwargs) = Raise e ->
  http_request net self method path kwargs w
    = (Raise e, w ++ [sent_request self method u kwargs]).
Proof.
  intros Hkw Hjoin Hnet.
  exact (http_request_transport_error net self method path kwargs w u Hkw Hjoin e Hnet).
Qed.

Lemma transport_exception_passes_through_witness :
  http_request timing_out quiet_client "get" "health-check" [] []
  = (Raise (RequestsError ConnectTimeout "Connection to cveawg.mitre.org timed out."),
     [] ++ [sent_request quiet_client "get" "https://cveawg.mitre.org/api/health-check" []]).
Proof.
  apply (transport_exception_passes_through timing_out quiet_client "get" "health-check"
           [] [] "https://cveawg.mitre.org/api/health-check"); reflexivity.
Defined.

(** X3: an [IdrException] that leaves [http_request] always
    comes from a response: [raise_exc] is set, the transport returned a
    response with a status from 400 to 599, and the message is the status
    line followed by the body.  The branch that wraps an exception without
    a response is never taken.  (The transport is taken not to raise
    [IdrException] itself, a class of this module.) *)
Theorem idr_exception_reports_response (net : Network) (self : Idr)
  (method path : string) (kwargs : dict) (w : World) (msg : string) :
  (forall req e, net w req = Raise e -> is_IdrException e = false) ->
  fst (http_request net self method path kwargs w) = Raise (IdrException msg) ->
  raise_exc self = true
  /\ exists u r,
       urljoin (url self) path = Ok u
       /\ net w (sent_request self method u kwargs) = Ok r
       /\ 400 <= status_code r < 600
       /\ msg = status_line r +++ "; returned error: " +++ shown_body r.
Proof.
  intros Hnet H.
  destruct (http_request_cases net self method path kwargs w)
    as [(e & He & Hne & _) | (u & Hkw & Hjoin)].
  { rewrite He in H. simpl in H. injection H as ->. discriminate. }
  rewrite (http_request_unfold net self method path kwargs w u Hkw Hjoin) in H.
  simpl in H.
  destruct (net w (sent_request self method u kwargs)) as [r|e] eqn:En.
  - destruct (raise_exc self); [|discriminate]. split; [reflexivity|].
    destruct (raise_for_status r) as [exc|] eqn:Es; [|discriminate].
    destruct (raise_for_status_some r exc Es) as [Hs Hstr].
    injection H as <-. exists u, r. rewrite Hstr. auto.
  - injection H as ->. specialize (Hnet _ _ En). discriminate.
Qed.

Lemma idr_exception_reports_response_witness :
  raise_exc client = true
  /\ exists u r,
       urljoin (url client) "cve-id" = Ok u
       /\ always forbidden_json [] (sent_request client "get" u []) = Ok r
       /\ 400 <= status_code r < 600
       /\ "403 Client Error: Forbidden for url: https://cveawg.mitre.org/api/cve-id; returned error: {'error': 'UNAUTHORIZED'}"
          = status_line r +++ "; returned error: " +++ shown_body r.
Proof.
  apply (idr_exception_reports_response (always forbidden_json) client "get" "cve-id" [] []).
  - intros req e H. discriminate.
  - reflexivity.
Defined.

(** X4: with [raise_exc] set, a response that [http_request]
    returns is the one the transport gave for the single request sent, and
    its status is outside 400 to 599: an error response is never handed
    back. *)
Theorem returned_response_is_no_error (net : Network) (self : Idr)
  (method path : string) (kwargs : dict) (w : World) (r : Response) :
  raise_exc self = true ->
  fst (http_request net self method path kwargs w) = Ok r ->
  (status_code r < 400 \/ 600 <= status_code r)
  /\ exists u,
       urljoin (url self) path = Ok u
       /\ net w (sent_request self method u kwargs) = Ok r
       /\ snd (http_request net self method path kwargs w)
          = w ++ [sent_request self method u kwargs].
Proof.
  intros Hr H.
  destruct (http_request_cases net self method path kwargs w)
    as [(e & He & _) | (u & Hkw & Hjoin)].
  { rewrite He in H. discriminate. }
  rewrite (http_request_unfold net self method path kwargs w u Hkw Hjoin) in *.
  simpl in *. rewrite Hr in H.
  destruct (net w (sent_request self method u kwargs)) as [r0|e] eqn:En; [|discriminate].
  destruct (raise_for_status r0) as [exc|] eqn:Es; [discriminate|].
  injection H as ->. split.
  - destruct (Z_lt_ge_dec (status_code r) 400) as [Hlo|Hlo]; [now left|].
    destruct (Z_lt_ge_dec (status_code r) 600) as [Hhi|Hhi]; [|right; lia].
    rewrite raise_for_status_error in Es by lia. discriminate.
  - exists u. auto.
Qed.

Lemma returned_response_is_no_error_witness :
  (status_code not_modified < 400 \/ 600 <= status_code not_modified)
  /\ exists u,
       urljoin (url client) "cve-id" = Ok u
       /\ always not_modified [] (sent_request client "get" u []) = Ok not_modified
       /\ snd (http_request (always not_modified) client "get" "cve-id" [] [])
          = [] ++ [sent_request client "get" u []].
Proof.
  apply (returned_response_is_no_error (always not_modified) client "get" "cve-id" [] []);
    reflexivity.
Defined.

(** X5: the caller cannot override what [http_request] fixes.
    Options that name [url], [timeout] or [headers] (or [self], [method],
    [path]) make the call fail with [TypeError], and nothing is sent. *)
Theorem bound_keywords_are_refused (net : Network) (self : Idr)
  (method path : string) (kwargs : dict) (w : World) (u : string) :
  passable kwargs = false ->
  urljoin (url self) path = Ok u ->
  exists msg,
    http_request net self method path kwargs w = (Raise (TypeError msg), w).
Proof.
  intros Hkw Hjoin.
  destruct (http_request_cases net self method path kwargs w)
    as [(e & He & _ & [(_ & msg & ->) | Hj]) | (u' & Hkw' & _)].
  - now exists msg.
  - rewrite Hjoin in Hj. discriminate.
  - rewrite Hkw in Hkw'. discriminate.
Qed.

Lemma bound_keywords_are_refused_witness :
  exists msg,
    http_request (always ok_empty) client "get" "cve-id" [("timeout", PInt 5)] []
    = (Raise (TypeError msg), []).
Proof.
  apply (bound_keywords_are_refused (always ok_empty) client "get" "cve-id"
           [("timeout", PInt 5)] [] "https://cveawg.mitre.org/api/cve-id");
    reflexivity.
Defined.



(** ** More on the generator *)







Lemma follows_cursors_follows (net : Network) (self : Idr) (path attr : string)
  (kwargs params params' : dict) (w w' : World) (pcs : list (list pyval * pyval)) :
  follows_cursors net self path attr kwargs params w pcs params' w' ->
  follows net self path attr kwargs params w (List.map fst pcs) params' w'.
Proof.
  induction 1; [constructor|]. cbn [List.map fst]. econstructor; eassumption.
Qed.




Section Failures.

Variable net : Network.
Variables (self : Idr) (path attr : string) (kwargs : dict).

Local Abbreviation G params pc :=
  {| g_self := self; g_path := path; g_page_data_attr := attr;
     g_params := params; g_kwargs := kwargs; g_pc := pc |}.

Local Abbreviation fetch params :=
  (get net self path (("params", PDict params) :: kwargs)).

(** [yield from] on a field of any kind. *)
Lemma step_fetch_iter (params : dict) (w w1 : World) (r : Response)
  (d : dict) (v : pyval) (items : list pyval) :
  fetch params w = (Ok r, w1) ->
  json r = Some (PDict d) ->
  dict_get d attr = Some v ->
  iter v = Ok items ->
  gen_step net (G params LoopHead) w
    = (Tau, G params (YieldFrom items (PDict d)), w1).
Proof.
  intros Hget Hjson Hattr Hiter. unfold gen_step, fetch_page. simpl.
  unfold bind at 1. rewrite Hget.
  unfold bind, lift, ret. rewrite Hjson. simpl. rewrite Hattr. now rewrite Hiter.
Qed.

Lemma step_fetch_not_iterable (params : dict) (w w1 : World) (r : Response)
  (d : dict) (v : pyval) (e : exn) :
  fetch params w = (Ok r, w1) ->
  json r = Some (PDict d) ->
  dict_get d attr = Some v ->
  iter v = Raise e ->
  gen_step net (G params LoopHead) w = (Throw e, G params Returned, w1).
Proof.
  intros Hget Hjson Hattr Hiter. unfold gen_step, fetch_page. simpl.
  unfold bind at 1. rewrite Hget.
  unfold bind, lift, ret. rewrite Hjson. simpl. rewrite Hattr. now rewrite Hiter.
Qed.

(** A page at which the body stops with the exception [e], after pages
    that went well: the items of these pages come out, then [e]. *)
Lemma drain_stops (params params' : dict) (w w' w'' : World)
  (pages : list (list pyval)) (e : exn) :
  follows net self path attr kwargs params w pages params' w' ->
  gen_step net (G params' LoopHead) w' = (Throw e, G params' Returned, w'') ->
  forall fuel,
    (run_fuel pages + 1 <= fuel)%nat ->
    drain net fuel (G params LoopHead) w
      = Some (List.concat pages, Some e, G params' Returned, w'').
Proof.
  intros Hpages Hstep fuel Hfuel.
  apply (drain_more_fuel net (run_fuel pages + 1)); [|assumption].
  rewrite <- (app_nil_r (List.concat pages)).
  apply (drain_follows net self path attr kwargs _ _ _ _ _ Hpages).
  cbn [drain]. now rewrite Hstep.
Qed.

End Failures.

Lemma then_answers_first (second : result Response) :
  follows (then_answers second) client "cve-id" "cve_ids" [] [] []
    [[cve "CVE-2021-0001"; cve "CVE-2021-0002"]]
    [("page", PInt 2)] [list_request []].
Proof.
  apply follows_cons
    with (r := page [cve "CVE-2021-0001"; cve "CVE-2021-0002"] (Some (PInt 2)))
         (cursor := PInt 2) (w1 := [list_request []]);
    [reflexivity
    |eexists; repeat split; reflexivity
    |discriminate|].
  apply follows_nil.
Qed.

(** X8: a page request that fails ends the iteration with the exception
    of the request (an [IdrException] for an error status, the exception
    of the transport for a timeout), after the items of the pages before
    it have been given.  The generator is then finished: asking again
    gives [StopIteration] and sends nothing, so the run cannot be
    resumed. *)
Theorem failed_fetch_ends_iteration (net : Network) (self : Idr)
  (path page_data_attr : string) (params kwargs : dict) (w : World)
  (pages : list (list pyval)) (params' : dict) (w' w'' : World) (e : exn) :
  kwargs_free ["self"; "path"; "page_data_attr"; "params"] kwargs = true ->
  follows net self path page_data_attr kwargs params w pages params' w' ->
  get net self path (("params", PDict params') :: kwargs) w' = (Raise e, w'') ->
  exists g g',
    get_paged self path page_data_attr params kwargs = Ok g
    /\ (forall fuel, (run_fuel pages + 1 <= fuel)%nat ->
        drain net fuel g w = Some (List.concat pages, Some e, g', w''))
    /\ gen_next net 1 g' w'' = Some (StopIteration, g', w'').
Proof.
  intros Hkw Hpages Hget.
  eexists.
  exists {| g_self := self; g_path := path; g_page_data_attr := page_data_attr;
            g_params := params'; g_kwargs := kwargs; g_pc := Returned |}.
  split; [now apply get_paged_generator|]. split; [|reflexivity].
  apply (drain_stops net self path page_data_attr kwargs _ _ _ _ _ _ _ Hpages).
  exact (step_fetch_raises net self path page_data_attr kwargs params' w' w'' e Hget).
Qed.

Lemma failed_fetch_ends_iteration_witness :
  exists g g',
    get_paged client "cve-id" "cve_ids" [] [] = Ok g
    /\ drain (then_answers (Ok bad_gateway_html)) 10 g []
       = Some ([cve "CVE-2021-0001"; cve "CVE-2021-0002"],
               Some (IdrException
                       "502 Server Error: Bad Gateway for url: https://cveawg.mitre.org/api/cve-id; returned error: b'<html>502</html>'"),
               g', [list_request []; list_request [("page", PInt 2)]])
    /\ gen_next (then_answers (Ok bad_gateway_html)) 1 g'
         [list_request []; list_request [("page", PInt 2)]]
       = Some (StopIteration, g', [list_request []; list_request [("page", PInt 2)]]).
Proof.
  destruct (failed_fetch_ends_iteration (then_answers (Ok bad_gateway_html)) client
              "cve-id" "cve_ids" [] [] []
              [[cve "CVE-2021-0001"; cve "CVE-2021-0002"]]
              [("page", PInt 2)] [list_request []]
              [list_request []; list_request [("page", PInt 2)]]
              (IdrException
                 "502 Server Error: Bad Gateway for url: https://cveawg.mitre.org/api/cve-id; returned error: b'<html>502</html>'")
              eq_refl (then_answers_first _) eq_refl)
    as (g & g' & Hg & Hdrain & Hnext).
  exists g, g'. split; [exact Hg|]. split; [|exact Hnext].
  apply Hdrain. simpl. lia.
Defined.

(** X9: a page whose body is not JSON ends the iteration with the
    [ValueError] of the decoding, whatever the status of the response,
    after the items of the pages before it. *)
Theorem non_json_page_raises_value_error (net : Network) (self : Idr)
  (path page_data_attr : string) (params kwargs : dict) (w : World)
  (pages : list (list pyval)) (params' : dict) (w' w'' : World) (r : Response) :
  kwargs_free ["self"; "path"; "page_data_attr"; "params"] kwargs = true ->
  follows net self path page_data_attr kwargs params w pages params' w' ->
  get net self path (("params", PDict params') :: kwargs) w' = (Ok r, w'') ->
  json r = None ->
  exists g g' msg,
    get_paged self path page_data_attr params kwargs = Ok g
    /\ g_pc g' = Returned
    /\ (forall fuel, (run_fuel pages + 1 <= fuel)%nat ->
        drain net fuel g w = Some (List.concat pages, Some (ValueError msg), g', w'')).
Proof.
  intros Hkw Hpages Hget Hjson.
  eexists.
  exists {| g_self := self; g_path := path; g_page_data_attr := page_data_attr;
            g_params := params'; g_kwargs := kwargs; g_pc := Returned |}.
  eexists.
  split; [now apply get_paged_generator|]. split; [reflexivity|].
  apply (drain_stops net self path page_data_attr kwargs _ _ _ _ _ _ _ Hpages).
  exact (step_fetch_not_json net self path page_data_attr kwargs params' w' w'' r
           Hget Hjson).
Qed.

Lemma non_json_page_raises_value_error_witness :
  exists g g' msg,
    get_paged client "cve-id" "cve_ids" [] [] = Ok g
    /\ g_pc g' = Returned
    /\ drain (then_answers (Ok html_page)) 10 g []
       = Some ([cve "CVE-2021-0001"; cve "CVE-2021-0002"], Some (ValueError msg), g',
               [list_request []; list_request [("page", PInt 2)]]).
Proof.
  destruct (non_json_page_raises_value_error (then_answers (Ok html_page)) client
              "cve-id" "cve_ids" [] [] []
              [[cve "CVE-2021-0001"; cve "CVE-2021-0002"]]
              [("page", PInt 2)] [list_request []]
              [list_request []; list_request [("page", PInt 2)]]
              html_page eq_refl (then_answers_first _) eq_refl eq_refl)
    as (g & g' & msg & Hg & Hpc & Hdrain).
  exists g, g', msg. split; [exact Hg|]. split; [exact Hpc|].
  apply Hdrain. simpl. lia.
Defined.

(** X10: a page whose named field is null, a boolean or a number ends
    the iteration with a [TypeError]: [yield from] cannot go through it.
    The items of the pages before it have been given. *)
Theorem scalar_field_raises_type_error (net : Network) (self : Idr)
  (path page_data_attr : string) (params kwargs : dict) (w : World)
  (pages : list (list pyval)) (params' : dict) (w' w'' : World)
  (r : Response) (d : dict) (v : pyval) :
  kwargs_free ["self"; "path"; "page_data_attr"; "params"] kwargs = true ->
  follows net self path page_data_attr kwargs params w pages params' w' ->
  get net self path (("params", PDict params') :: kwargs) w' = (Ok r, w'') ->
  json r = Some (PDict d) ->
  dict_get d page_data_attr = Some v ->
  (forall l, v <> PList l) -> (forall s, v <> PStr s) -> (forall d', v <> PDict d') ->
  exists g g' msg,
    get_paged self path page_data_attr params kwargs = Ok g
    /\ g_pc g' = Returned
    /\ (forall fuel, (run_fuel pages + 1 <= fuel)%nat ->
        drain net fuel g w = Some (List.concat pages, Some (TypeError msg), g', w'')).
Proof.
  intros Hkw Hpages Hget Hjson Hattr Hl Hs Hd.
  assert (Hiter : exists msg, iter v = Raise (TypeError msg)).
  { destruct v; try (eexists; reflexivity).
    - now destruct (Hs s).
    - now destruct (Hl l).
    - now destruct (Hd d0). }
  destruct Hiter as (msg & Hiter).
  eexists.
  exists {| g_self := self; g_path := path; g_page_data_attr := page_data_attr;
            g_params := params'; g_kwargs := kwargs; g_pc := Returned |}.
  exists msg.
  split; [now apply get_paged_generator|]. split; [reflexivity|].
  apply (drain_stops net self path page_data_attr kwargs _ _ _ _ _ _ _ Hpages).
  exact (step_fetch_not_iterable net self path page_data_attr kwargs params' w' w'' r d v
           _ Hget Hjson Hattr Hiter).
Qed.

Lemma scalar_field_raises_type_error_witness :
  exists g g' msg,
    get_paged client "cve-id" "cve_ids" [] [] = Ok g
    /\ g_pc g' = Returned
    /\ drain (then_answers (Ok numeric_field)) 10 g []
       = Some ([cve "CVE-2021-0001"; cve "CVE-2021-0002"], Some (TypeError msg), g',
               [list_request []; list_request [("page", PInt 2)]]).
Proof.
  destruct (scalar_field_raises_type_error (then_answers (Ok numeric_field)) client
              "cve-id" "cve_ids" [] [] []
              [[cve "CVE-2021-0001"; cve "CVE-2021-0002"]]
              [("page", PInt 2)] [list_request []]
              [list_request []; list_request [("page", PInt 2)]]
              numeric_field [("cve_ids", PInt 7)] (PInt 7)
              eq_refl (then_answers_first _) eq_refl eq_refl eq_refl)
    as (g & g' & msg & Hg & Hpc & Hdrain); try discriminate.
  exists g, g', msg. split; [exact Hg|]. split; [exact Hpc|].
  apply Hdrain. simpl. lia.
Defined.

(** X11: the named field need not be an array to be gone through.  When
    it is a string, the run gives its characters one by one; when it is an
    object, its keys in order.  No error is raised. *)
Theorem text_field_is_gone_through (net : Network) (self : Idr)
  (path page_data_attr : string) (params kwargs : dict) (w : World)
  (pages : list (list pyval)) (params' : dict) (w' w'' : World)
  (r : Response) (d : dict) (v : pyval) (items : list pyval) :
  kwargs_free ["self"; "path"; "page_data_attr"; "params"] kwargs = true ->
  follows net self path page_data_attr kwargs params w pages params' w' ->
  get net self path (("params", PDict params') :: kwargs) w' = (Ok r, w'') ->
  json r = Some (PDict d) ->
  dict_get d page_data_attr = Some v ->
  get_method (PDict d) "nextPage" = Ok PNone ->
  (exists s, v = PStr s /\ items = chars s)
  \/ (exists d', v = PDict d' /\ items = List.map PStr (dict_keys d')) ->
  exists g g',
    get_paged self path page_data_attr params kwargs = Ok g
    /\ g_pc g' = Returned
    /\ (forall fuel, (run_fuel (pages ++ [items]) <= fuel)%nat ->
        drain net fuel g w = Some (List.concat pages ++ items, None, g', w'')).
Proof.
  intros Hkw Hpages Hget Hjson Hattr Hcur Hv.
  assert (Hiter : iter v = Ok items)
    by (destruct Hv as [(s & -> & ->) | (d' & -> & ->)]; reflexivity).
  eexists.
  exists {| g_self := self; g_path := path; g_page_data_attr := page_data_attr;
            g_params := params'; g_kwargs := kwargs; g_pc := Returned |}.
  split; [now apply get_paged_generator|]. split; [reflexivity|].
  intros fuel Hfuel.
  apply (drain_more_fuel net (run_fuel (pages ++ [items]))); [|assumption].
  rewrite run_fuel_app.
  apply (drain_follows net self path page_data_attr kwargs _ _ _ _ _ Hpages).
  cbn [run_fuel drain].
  rewrite (step_fetch_iter net self path page_data_attr kwargs params' w' w'' r d v items
             Hget Hjson Hattr Hiter).
  assert (Hend : drain net 1
                   {| g_self := self; g_path := path; g_page_data_attr := page_data_attr;
                      g_params := params'; g_kwargs := kwargs;
                      g_pc := YieldFrom [] (PDict d) |} w''
                 = Some ([], None,
                         {| g_self := self; g_path := path;
                            g_page_data_attr := page_data_attr; g_params := params';
                            g_kwargs := kwargs; g_pc := Returned |}, w''))
    by (cbn [drain];
        now rewrite (step_last net self path page_data_attr kwargs params' (PDict d) w'' Hcur)).
  rewrite (drain_items net self path page_data_attr kwargs params' items (PDict d) w'' 1
             [] None _ _ Hend).
  now rewrite app_nil_r.
Qed.

Lemma text_field_is_gone_through_witness :
  exists g g',
    get_paged client "cve-id" "cve_ids" [] [] = Ok g
    /\ g_pc g' = Returned
    /\ drain (then_answers (Ok string_field)) 10 g []
       = Some ([cve "CVE-2021-0001"; cve "CVE-2021-0002"] ++ [PStr "a"; PStr "b"], None, g',
               [list_request []; list_request [("page", PInt 2)]]).
Proof.
  destruct (text_field_is_gone_through (then_answers (Ok string_field)) client
              "cve-id" "cve_ids" [] [] []
              [[cve "CVE-2021-0001"; cve "CVE-2021-0002"]]
              [("page", PInt 2)] [list_request []]
              [list_request []; list_request [("page", PInt 2)]]
              string_field [("cve_ids", PStr "ab")] (PStr "ab") [PStr "a"; PStr "b"]
              eq_refl (then_answers_first _) eq_refl eq_refl eq_refl eq_refl
              (or_introl (ex_intro _ "ab" (conj eq_refl eq_refl))))
    as (g & g' & Hg & Hpc & Hdrain).
  exists g, g'. split; [exact Hg|]. split; [exact Hpc|].
  apply Hdrain. simpl. lia.
Defined.

Lemma endless_two_pages :
  follows endless client "cve-id" "cve_ids" [] [] []
    [[cve "CVE-2021-0001"]; [cve "CVE-2021-0001"]]
    [("page", PInt 3)]
    [list_request []; list_request [("page", PInt 2)]].
Proof.
  apply follows_cons
    with (r := page [cve "CVE-2021-0001"] (Some (PInt 2)))
         (cursor := PInt 2) (w1 := [list_request []]);
    [reflexivity
    |eexists; repeat split; reflexivity
    |discriminate|].
  apply follows_cons
    with (r := page [cve "CVE-2021-0001"] (Some (PInt 3)))
         (cursor := PInt 3) (w1 := [list_request []; list_request [("page", PInt 2)]]);
    [reflexivity
    |eexists; repeat split; reflexivity
    |discriminate|].
  apply follows_nil.
Qed.

(** X12: stopping early needs no end of the run.  Whatever the server
    does after some pages, even if it never gives a null [nextPage], a
    consumer that asks for no more items than these pages hold gets the
    first of them, and the generator has sent just the requests these
    need. *)
Theorem early_stop_needs_no_last_page (net : Network) (self : Idr)
  (path page_data_attr : string) (params kwargs : dict) (w : World)
  (pages : list (list pyval)) (params' : dict) (w' : World) :
  kwargs_free ["self"; "path"; "page_data_attr"; "params"] kwargs = true ->
  follows net self path page_data_attr kwargs params w pages params' w' ->
  exists g,
    get_paged self path page_data_attr params kwargs = Ok g
    /\ forall n fuel,
         (n <= List.length (List.concat pages))%nat ->
         (2 * List.length pages + 1 <= fuel)%nat ->
         exists gn wn,
           take net fuel n g w = Some (List.firstn n (List.concat pages), gn, wn)
           /\ List.length wn = (List.length w + fetches_needed n pages)%nat.
Proof.
  intros Hkw Hpages.
  eexists. split; [now apply get_paged_generator|].
  intros n fuel Hn Hfuel.
  exact (take_prefix net self path page_data_attr kwargs params params' w w' pages
           Hpages n fuel Hn Hfuel).
Qed.

Lemma early_stop_needs_no_last_page_witness :
  exists g gn wn,
    get_paged client "cve-id" "cve_ids" [] [] = Ok g
    /\ take endless 5 1 g [] = Some ([cve "CVE-2021-0001"], gn, wn)
    /\ List.length wn = 1%nat.
Proof.
  destruct (early_stop_needs_no_last_page endless client "cve-id" "cve_ids" [] [] []
              [[cve "CVE-2021-0001"]; [cve "CVE-2021-0001"]]
              [("page", PInt 3)]
              [list_request []; list_request [("page", PInt 2)]]
              eq_refl endless_two_pages)
    as (g & Hg & Htake).
  destruct (Htake 1%nat 5%nat) as (gn & wn & H1 & H2); [simpl; lia|simpl; lia|].
  exists g, gn, wn. split; [exact Hg|]. split; [exact H1|exact H2].
Defined.

(** ** The URLs of the endpoints *)

Lemma forallb_impl (p q : ascii -> bool) (s : string) :
  (forall c, p c = true -> q c = true) ->
  PyStr.forallb p s = true -> PyStr.forallb q s = true.
Proof.
  intros Hpq. induction s as [|c s IH]; simpl; [reflexivity|].
  intros H. apply andb_true_iff in H as [Hc Hs].
  now rewrite (Hpq c Hc), IH.
Qed.

Lemma forallb_app (p : ascii -> bool) (a b : string) :
  PyStr.forallb p (a +++ b) = (PyStr.forallb p a && PyStr.forallb p b)%bool.
Proof.
  induction a as [|c a IH]; simpl; [reflexivity|].
  now rewrite IH, andb_assoc.
Qed.

(** A path character is none of the characters a URL gives a meaning to,
    the slash apart. *)
Lemma path_char_plain (c : ascii) :
  is_path_char c = true ->
  is_unsafe c = false
  /\ is_c0_or_space c = false
  /\ Ascii.eqb c ":" = false
  /\ Ascii.eqb c "?" = false /\ Ascii.eqb c "#" = false
  /\ Ascii.eqb c ";" = false /\ Ascii.eqb c "[" = false
  /\ Ascii.eqb c "]" = false.
Proof.
  destruct c as [[] [] [] [] [] [] [] []]; intros H;
    first [discriminate H | repeat split].
Qed.

Lemma word_char_plain (c : ascii) :
  is_word_char c = true ->
  is_path_char c = true /\ Ascii.eqb c "/" = false /\ Ascii.eqb c "." = false.
Proof.
  destruct c as [[] [] [] [] [] [] [] []]; intros H;
    first [discriminate H | repeat split].
Qed.

Lemma split_once_absent (c : ascii) (s : string) :
  PyStr.forallb (fun a => negb (Ascii.eqb a c)) s = true ->
  PyStr.split_once c s = None.
Proof.
  induction s as [|a s IH]; simpl; [reflexivity|].
  intros H. apply andb_true_iff in H as [Ha Hs].
  apply negb_true_iff in Ha. rewrite Ha. now rewrite IH.
Qed.

Lemma split_absent (c : ascii) (s : string) :
  PyStr.forallb (fun a => negb (Ascii.eqb a c)) s = true ->
  PyStr.split c s = [s].
Proof.
  induction s as [|a s IH]; simpl; [reflexivity|].
  intros H. apply andb_true_iff in H as [Ha Hs].
  apply negb_true_iff in Ha. rewrite Ha. now rewrite IH.
Qed.

Lemma split_app (c : ascii) (a b : string) :
  PyStr.forallb (fun x => negb (Ascii.eqb x c)) a = true ->
  PyStr.split c (a +++ String c b) = a :: PyStr.split c b.
Proof.
  induction a as [|x a IH]; simpl.
  - intros _. now rewrite Ascii.eqb_refl.
  - intros H. apply andb_true_iff in H as [Hx Ha].
    apply negb_true_iff in Hx. rewrite Hx. now rewrite IH.
Qed.

Lemma contains_absent (c : ascii) (s : string) :
  PyStr.forallb (fun a => negb (Ascii.eqb a c)) s = true ->
  PyStr.contains c s = false.
Proof.
  induction s as [|a s IH]; simpl; [reflexivity|].
  intros H. apply andb_true_iff in H as [Ha Hs].
  apply negb_true_iff in Ha. rewrite Ha. now apply IH.
Qed.

Lemma lstrip_id (p : ascii -> bool) (s : string) :
  PyStr.forallb (fun a => negb (p a)) s = true -> PyStr.lstrip p s = s.
Proof.
  destruct s as [|a s]; simpl; [reflexivity|].
  intros H. apply andb_true_iff in H as [Ha _].
  apply negb_true_iff in Ha. now rewrite Ha.
Qed.

(** A path of path characters that does not start with two slashes is
    its own path component: no scheme, no host, no query, no fragment,
    no parameters. *)
Lemma urlparse_plain_path (path scheme : string) :
  PyStr.forallb is_path_char path = true ->
  PyStr.starts_with "//" path = false ->
  scheme = "http" \/ scheme = "https" ->
  urlparse path scheme
  = Ok {| pr_scheme := scheme; pr_netloc := EmptyString; pr_path := path;
          pr_params := EmptyString; pr_query := EmptyString;
          pr_fragment := EmptyString |}.
Proof.
  intros Hp Hss Hs.
  assert (Habs : forall q, (forall c, is_path_char c = true -> q c = false) ->
                 PyStr.forallb (fun a => negb (q a)) path = true).
  { intros q Hq. revert Hp. apply forallb_impl. intros c Hc. now rewrite (Hq c Hc). }
  assert (Hclean : clean_url path = path).
  { unfold clean_url. rewrite lstrip_id.
    - apply remove_id. apply Habs. intros c Hc. now destruct (path_char_plain c Hc) as (-> & _).
    - apply Habs. intros c Hc. now destruct (path_char_plain c Hc) as (_ & -> & _). }
  assert (Hcs : clean_scheme scheme = scheme) by (destruct Hs as [-> | ->]; reflexivity).
  assert (Hcolon : PyStr.split_once ":" path = None).
  { apply split_once_absent, (Habs (fun a => Ascii.eqb a ":")).
    intros c Hc. now destruct (path_char_plain c Hc) as (_ & _ & -> & _). }
  assert (Hq : PyStr.split_once "?" path = None).
  { apply split_once_absent, (Habs (fun a => Ascii.eqb a "?")).
    intros c Hc. now destruct (path_char_plain c Hc) as (_ & _ & _ & -> & _). }
  assert (Hh : PyStr.split_once "#" path = None).
  { apply split_once_absent, (Habs (fun a => Ascii.eqb a "#")).
    intros c Hc. now destruct (path_char_plain c Hc) as (_ & _ & _ & _ & -> & _). }
  assert (Hsemi : PyStr.contains ";" path = false).
  { apply contains_absent, (Habs (fun a => Ascii.eqb a ";")).
    intros c Hc. now destruct (path_char_plain c Hc) as (_ & _ & _ & _ & _ & -> & _). }
  unfold urlparse, urlsplit. rewrite Hclean, Hcs.
  unfold split_scheme. rewrite Hcolon, Hss.
  cbn [bad_brackets PyStr.contains andb orb]. rewrite Hh, Hq.
  cbn [sr_scheme sr_netloc sr_path sr_query sr_fragment].
  rewrite Hsemi, andb_false_r. reflexivity.
Qed.

Lemma word_is_path (s : string) :
  is_word s = true -> PyStr.forallb is_path_char s = true.
Proof.
  apply forallb_impl. intros c Hc. now destruct (word_char_plain c Hc).
Qed.

Lemma word_no_slash (s : string) :
  is_word s = true ->
  PyStr.forallb (fun a => negb (Ascii.eqb a "/")) s = true.
Proof.
  apply forallb_impl. intros c Hc. now destruct (word_char_plain c Hc) as (_ & -> & _).
Qed.

Lemma word_no_dots (s : string) :
  is_word s = true -> String.eqb s ".." = false /\ String.eqb s "." = false.
Proof.
  intros H. destruct s as [|c s]; [now split|].
  unfold is_word in H. simpl in H. apply andb_true_iff in H as [Hc _].
  destruct (word_char_plain c Hc) as (_ & _ & Hdot).
  cbn [String.eqb]. now rewrite Hdot.
Qed.

Lemma resolve_step_plain (acc : list string) (seg : string) :
  String.eqb seg ".." = false -> String.eqb seg "." = false ->
  resolve_step acc seg = acc ++ [seg].
Proof. intros H1 H2. unfold resolve_step. now rewrite H1, H2. Qed.

(** Joining [cve-id/<word>] to a base whose path is [/api/]. *)
Lemma urljoin_api_cve_id (base host id : string) (b : ParseResult) :
  base <> EmptyString ->
  urlparse base EmptyString = Ok b ->
  pr_scheme b = "https" -> pr_netloc b = host -> host <> EmptyString ->
  pr_path b = "/api/" ->
  is_word id = true ->
  urljoin base ("cve-id/" +++ id) = Ok ("https://" +++ host +++ "/api/cve-id/" +++ id).
Proof.
  intros Hbase Hb Hs Hn Hhost Hpath Hid.
  destruct (word_no_dots id Hid) as [Hdd Hd].
  unfold urljoin.
  destruct base as [|c0 base0]; [congruence|]. cbn [PyStr.is_empty String.append].
  change (String "c" (String "v" (String "e" (String "-" (String "i" (String "d" (String "/" id)))))))
    with ("cve-id/" +++ id).
  rewrite Hb, Hs.
  rewrite (urlparse_plain_path ("cve-id/" +++ id) "https");
    [ | rewrite forallb_app; now rewrite (word_is_path id Hid) | reflexivity | now right ].
  cbn [pr_scheme pr_netloc pr_path pr_params pr_query pr_fragment].
  change (String.eqb "https" "https") with true.
  change (mem "https" uses_relative) with true.
  change (mem "https" uses_netloc) with true.
  cbn [negb orb andb PyStr.is_empty String.append].
  rewrite Hn, Hpath. unfold join_path.
  change (PyStr.split "/" "/api/") with [EmptyString; "api"; EmptyString].
  cbn [List.last PyStr.is_empty PyStr.starts_with Ascii.eqb Bool.eqb andb].
  change (String "c" (String "v" (String "e" (String "-" (String "i" (String "d" (String "/" id)))))))
    with ("cve-id" +++ String "/" id).
  rewrite split_app by reflexivity.
  rewrite (split_absent "/" id (word_no_slash id Hid)).
  cbn [app filter_middle List.removelast List.filter PyStr.is_empty negb List.last].
  unfold resolve. cbn [List.fold_left List.last].
  rewrite Hdd, Hd. rewrite !resolve_step_plain by (reflexivity || assumption).
  cbn [app orb PyStr.join String.append PyStr.is_empty].
  unfold urlunparse, urlunsplit.
  destruct host as [|h0 host0]; [congruence|].
  cbn [PyStr.is_empty negb orb andb PyStr.starts_with Ascii.eqb Bool.eqb String.append].
  reflexivity.
Qed.

(** Joining [org/<word>/id_quota] to a base whose path is [/api/]. *)
Lemma urljoin_api_quota (base host o : string) (b : ParseResult) :
  base <> EmptyString ->
  urlparse base EmptyString = Ok b ->
  pr_scheme b = "https" -> pr_netloc b = host -> host <> EmptyString ->
  pr_path b = "/api/" ->
  is_word o = true -> o <> EmptyString ->
  urljoin base ("org/" +++ o +++ "/id_quota")
  = Ok ("https://" +++ host +++ "/api/org/" +++ o +++ "/id_quota").
Proof.
  intros Hbase Hb Hs Hn Hhost Hpath Ho Hne.
  destruct (word_no_dots o Ho) as [Hdd Hd].
  unfold urljoin.
  destruct base as [|c0 base0]; [congruence|]. cbn [PyStr.is_empty String.append].
  change (String "o" (String "r" (String "g" (String "/" (o +++ "/id_quota")))))
    with ("org/" +++ o +++ "/id_quota").
  rewrite Hb, Hs.
  rewrite (urlparse_plain_path ("org/" +++ o +++ "/id_quota") "https");
    [ | rewrite !forallb_app; now rewrite (word_is_path o Ho) | reflexivity | now right ].
  cbn [pr_scheme pr_netloc pr_path pr_params pr_query pr_fragment].
  change (String.eqb "https" "https") with true.
  change (mem "https" uses_relative) with true.
  change (mem "https" uses_netloc) with true.
  cbn [negb orb andb PyStr.is_empty String.append].
  rewrite Hn, Hpath. unfold join_path.
  change (PyStr.split "/" "/api/") with [EmptyString; "api"; EmptyString].
  cbn [List.last PyStr.is_empty PyStr.starts_with Ascii.eqb Bool.eqb andb].
  change (String "o" (String "r" (String "g" (String "/" (o +++ "/id_quota")))))
    with ("org" +++ String "/" (o +++ String "/" "id_quota")).
  rewrite split_app by reflexivity.
  rewrite (split_app "/" o "id_quota" (word_no_slash o Ho)).
  change (PyStr.split "/" "id_quota") with ["id_quota"].
  destruct o as [|o0 o'] eqn:Eo; [congruence|]. rewrite <- Eo in *.
  cbn [app filter_middle List.removelast List.filter negb List.last].
  replace (PyStr.is_empty o) with false by (now rewrite Eo).
  cbn [PyStr.is_empty negb app].
  unfold resolve. cbn [List.fold_left List.last].
  change (String.eqb "id_quota" ".") with false.
  change (String.eqb "id_quota" "..") with false.
  rewrite !resolve_step_plain by (reflexivity || assumption).
  cbn [app orb PyStr.join String.append PyStr.is_empty].
  unfold urlunparse, urlunsplit.
  destruct host as [|h0 host0]; [congruence|].
  cbn [PyStr.is_empty negb orb andb PyStr.starts_with Ascii.eqb Bool.eqb String.append].
  reflexivity.
Qed.

(** A named environment's base URL, parsed. *)
Lemma envs_parsed (env base : string) :
  dict_get ENVS env = Some base ->
  exists host,
    base = "https://" +++ host +++ "/api/"
    /\ base <> EmptyString /\ host <> EmptyString
    /\ urlparse base EmptyString
       = Ok {| pr_scheme := "https"; pr_netloc := host; pr_path := "/api/";
               pr_params := EmptyString; pr_query := EmptyString;
               pr_fragment := EmptyString |}.
Proof.
  unfold ENVS. cbn [dict_get].
  destruct (String.eqb "prod" env).
  - intros H; injection H as <-. exists "cveawg.mitre.org".
    repeat split; discriminate.
  - destruct (String.eqb "dev" env); [|discriminate].
    intros H; injection H as <-. exists "cveawg-dev.mitre.org".
    repeat split; discriminate.
Qed.

(** X13: on a named environment, [show_cve] of an identifier made of
    letters, digits, hyphens and underscores sends one GET request to the
    base URL followed by [cve-id/] and the identifier, with no further
    arguments. *)
Theorem show_cve_requests_the_record (net : Network) (self : Idr)
  (env id : string) (w : World) :
  dict_get ENVS env = Some (url self) ->
  is_word id = true ->
  snd (show_cve net self (PStr id) w)
  = w ++ [sent_request self "get" (url self +++ "cve-id/" +++ id) []].
Proof.
  intros Henv Hid.
  destruct (envs_parsed env (url self) Henv) as (host & Hurl & Hne & Hhost & Hb).
  unfold show_cve. rewrite (get_unfold net self _ [] w eq_refl).
  apply http_request_log; [reflexivity|].
  change (Py.str (PStr id)) with id.
  rewrite (urljoin_api_cve_id (url self) host id _ Hne Hb eq_refl eq_refl Hhost eq_refl Hid).
  rewrite Hurl. now rewrite !append_assoc.
Qed.

Lemma show_cve_requests_the_record_witness :
  snd (show_cve timing_out client (PStr "CVE-2021-0001") [])
  = [sent_request client "get" "https://cveawg.mitre.org/api/cve-id/CVE-2021-0001" []].
Proof.
  exact (show_cve_requests_the_record timing_out client "prod" "CVE-2021-0001" []
           eq_refl eq_refl).
Defined.

(** X14: on a named environment, [quota] of a client whose organisation
    is a non-empty name made of letters, digits, hyphens and underscores
    sends one GET request to the base URL followed by [org/], the
    organisation and [/id_quota]. *)
Theorem quota_requests_the_organisation (net : Network) (self : Idr)
  (env : string) (w : World) :
  dict_get ENVS env = Some (url self) ->
  is_word (org self) = true -> org self <> EmptyString ->
  snd (quota net self w)
  = w ++ [sent_request self "get" (url self +++ "org/" +++ org self +++ "/id_quota") []].
Proof.
  intros Henv Ho Hne'.
  destruct (envs_parsed env (url self) Henv) as (host & Hurl & Hne & Hhost & Hb).
  unfold quota. rewrite (get_unfold net self _ [] w eq_refl).
  apply http_request_log; [reflexivity|].
  rewrite (urljoin_api_quota (url self) host (org self) _ Hne Hb eq_refl eq_refl Hhost
             eq_refl Ho Hne').
  rewrite Hurl. now rewrite !append_assoc.
Qed.

Lemma quota_requests_the_organisation_witness :
  snd (quota timing_out client [])
  = [sent_request client "get" "https://cveawg.mitre.org/api/org/acme/id_quota" []].
Proof.
  refine (quota_requests_the_organisation timing_out client "prod" [] eq_refl eq_refl _).
  discriminate.
Defined.

(** Joining a word after one slash to a base whose path is [/api/]. *)
Lemma urljoin_api_rooted (base host id : string) (b : ParseResult) :
  base <> EmptyString ->
  urlparse base EmptyString = Ok b ->
  pr_scheme b = "https" -> pr_netloc b = host -> host <> EmptyString ->
  pr_path b = "/api/" ->
  is_word id = true ->
  urljoin base ("/" +++ id) = Ok ("https://" +++ host +++ "/" +++ id).
Proof.
  intros Hbase Hb Hs Hn Hhost Hpath Hid.
  destruct (word_no_dots id Hid) as [Hdd Hd].
  assert (Hss : PyStr.starts_with "//" ("/" +++ id) = false).
  { destruct id as [|c id']; [reflexivity|].
    unfold is_word in Hid. simpl in Hid. apply andb_true_iff in Hid as [Hc _].
    destruct (word_char_plain c Hc) as (_ & Hsl & _).
    cbn [String.append PyStr.starts_with]. rewrite Ascii.eqb_sym in Hsl.
    rewrite Hsl. now rewrite andb_false_r. }
  unfold urljoin.
  destruct base as [|c0 base0]; [congruence|]. cbn [PyStr.is_empty String.append].
  change (String "/" id) with ("/" +++ id).
  rewrite Hb, Hs.
  rewrite (urlparse_plain_path ("/" +++ id) "https");
    [ | rewrite forallb_app; now rewrite (word_is_path id Hid) | exact Hss | now right ].
  cbn [pr_scheme pr_netloc pr_path pr_params pr_query pr_fragment].
  change (String.eqb "https" "https") with true.
  change (mem "https" uses_relative) with true.
  change (mem "https" uses_netloc) with true.
  cbn [negb orb andb PyStr.is_empty String.append].
  rewrite Hn, Hpath. unfold join_path.
  cbn [PyStr.starts_with Ascii.eqb Bool.eqb andb].
  change (String "/" id) with (EmptyString +++ String "/" id).
  rewrite split_app by reflexivity.
  rewrite (split_absent "/" id (word_no_slash id Hid)).
  unfold resolve. cbn [List.fold_left List.last].
  rewrite Hdd, Hd. rewrite !resolve_step_plain by (reflexivity || assumption).
  cbn [app orb PyStr.join String.append PyStr.is_empty].
  unfold urlunparse, urlunsplit.
  destruct host as [|h0 host0]; [congruence|].
  cbn [PyStr.is_empty negb orb andb PyStr.starts_with Ascii.eqb Bool.eqb String.append].
  reflexivity.
Qed.

(** X15: a path that starts with a slash is taken from the root of the
    host: on a named environment, whose base URL ends in [/api/], the
    request for [/] followed by a word goes to the host without the
    [/api/] prefix. *)
Theorem leading_slash_drops_api_prefix (net : Network) (self : Idr)
  (env method id : string) (kwargs : dict) (w : World) :
  dict_get ENVS env = Some (url self) ->
  passable kwargs = true ->
  is_word id = true ->
  exists host,
    url self = "https://" +++ host +++ "/api/"
    /\ snd (http_request net self method ("/" +++ id) kwargs w)
       = w ++ [sent_request self method ("https://" +++ host +++ "/" +++ id) kwargs].
Proof.
  intros Henv Hkw Hid.
  destruct (envs_parsed env (url self) Henv) as (host & Hurl & Hne & Hhost & Hb).
  exists host. split; [exact Hurl|].
  apply http_request_log; [exact Hkw|].
  exact (urljoin_api_rooted (url self) host id _ Hne Hb eq_refl eq_refl Hhost eq_refl Hid).
Qed.

Lemma leading_slash_drops_api_prefix_witness :
  exists host,
    url client = "https://" +++ host +++ "/api/"
    /\ snd (http_request timing_out client "get" ("/" +++ "cve-id") [] [])
       = [] ++ [sent_request client "get" ("https://" +++ host +++ "/" +++ "cve-id") []].
Proof.
  exact (leading_slash_drops_api_prefix timing_out client "prod" "get" "cve-id" [] []
           eq_refl eq_refl eq_refl).
Defined.

(** X16: a client built for a named environment, with no URL of its
    own, carries the credentials it was given: [ping] sends one GET
    request to the environment's [health-check], with the key, the
    organisation and the user name in the three headers, and hands back a
    response whose status is no error. *)
Theorem ping_on_named_environment (net : Network) (user o key env base : string)
  (rx : bool) (w : World) :
  dict_get ENVS env = Some base ->
  exists self,
    Idr_init user o key env None rx = Ok self
    /\ let req := {| rq_method := "get"; rq_url := base +++ "health-check";
                     rq_timeout := 60;
                     rq_headers := [("CVE-API-KEY", key); ("CVE-API-ORG", o);
                                    ("CVE-API-USER", user)];
                     rq_kwargs := [] |} in
       snd (ping net self w) = w ++ [req]
       /\ forall r, net w req = Ok r ->
                    status_code r < 400 \/ 600 <= status_code r ->
                    fst (ping net self w) = Ok r.
Proof.
  intros Henv.
  destruct (envs_parsed env base Henv) as (host & Hurl & Hne & Hhost & Hb).
  set (self := {| username := user; org := o; api_key := key; url := base;
                  raise_exc := rx |}).
  exists self. split.
  - unfold Idr_init. rewrite Henv. cbn [or_str].
    destruct base; [congruence|reflexivity].
  - assert (Hj : urljoin base "health-check" = Ok (base +++ "health-check")).
    { unfold ENVS in Henv. cbn [dict_get] in Henv.
      destruct (String.eqb "prod" env); [injection Henv as <-; reflexivity|].
      destruct (String.eqb "dev" env); [injection Henv as <-; reflexivity|discriminate]. }
    cbn zeta. unfold ping. rewrite (get_unfold net self _ [] w eq_refl). split.
    + now apply (http_request_log net self "get" "health-check" [] w _ eq_refl Hj).
    + intros r Hr Hs.
      now rewrite (http_request_fine net self "get" "health-check" [] w _ eq_refl Hj r Hr Hs).
Qed.

Lemma ping_on_named_environment_witness :
  exists self,
    Idr_init "alice" "acme" "s3cret" "dev" None true = Ok self
    /\ let req := {| rq_method := "get";
                     rq_url := "https://cveawg-dev.mitre.org/api/" +++ "health-check";
                     rq_timeout := 60;
                     rq_headers := [("CVE-API-KEY", "s3cret"); ("CVE-API-ORG", "acme");
                                    ("CVE-API-USER", "alice")];
                     rq_kwargs := [] |} in
       snd (ping (always ok_empty) self []) = [] ++ [req]
       /\ forall r, always ok_empty [] req = Ok r ->
                    status_code r < 400 \/ 600 <= status_code r ->
                    fst (ping (always ok_empty) self []) = Ok r.
Proof.
  exact (ping_on_named_environment (always ok_empty) "alice" "acme" "s3cret" "dev"
           "https://cveawg-dev.mitre.org/api/" true [] eq_refl).
Defined.

(** The witnesses of the two host properties. *)
Lemma show_cve_stays_on_host_witness :
  exists u,
    url_netloc u = Ok "cveawg.mitre.org"
    /\ snd (show_cve timing_out client (PStr "../../admin?x=1#top") [])
       = [] ++ [sent_request client "get" u []].
Proof.
  refine (show_cve_stays_on_host timing_out client (PStr "../../admin?x=1#top") []
           {| pr_scheme := "https"; pr_netloc := "cveawg.mitre.org"; pr_path := "/api/";
              pr_params := EmptyString; pr_query := EmptyString;
              pr_fragment := EmptyString |} eq_refl (or_intror eq_refl) _).
  discriminate.
Defined.

Lemma quota_stays_on_host_witness :
  exists u,
    url_netloc u = Ok "cveawg.mitre.org"
    /\ snd (quota timing_out client []) = [] ++ [sent_request client "get" u []].
Proof.
  refine (quota_stays_on_host timing_out client []
           {| pr_scheme := "https"; pr_netloc := "cveawg.mitre.org"; pr_path := "/api/";
              pr_params := EmptyString; pr_query := EmptyString;
              pr_fragment := EmptyString |} eq_refl (or_intror eq_refl) _).
  discriminate.
Defined.

(** ** A run without an end *)

Section Unending.

Variable net : Network.
Variables (self : Idr) (path attr : string) (kwargs : dict).

Local Abbreviation G params pc :=
  {| g_self := self; g_path := path; g_page_data_attr := attr;
     g_params := params; g_kwargs := kwargs; g_pc := pc |}.

Hypothesis Hmore : forall params w, exists r w1 items cursor,
  get net self path (("params", PDict params) :: kwargs) w = (Ok r, w1)
  /\ is_page attr r items cursor /\ cursor <> PNone.

(** The body is at the loop head, or inside a page that names a next
    one. *)
Local Abbreviation names_next pc :=
  (pc = LoopHead
   \/ exists rest page cursor,
        pc = YieldFrom rest page
        /\ get_method page "nextPage" = Ok cursor /\ cursor <> PNone).

Lemma drain_unending (fuel : nat) :
  forall params pc w, names_next pc -> drain net fuel (G params pc) w = None.
Proof.
  induction fuel as [|fuel IH]; intros params pc w Hpc; [reflexivity|].
  cbn [drain].
  destruct Hpc as [-> | (rest & page & cursor & -> & Hcur & Hne)].
  - destruct (Hmore params w) as (r & w1 & items & cursor & Hget & (d & Hjson & Hattr & Hcur) & Hne).
    rewrite (step_fetch net self path attr kwargs params w w1 r d items Hget Hjson Hattr).
    apply IH. right. now exists items, (PDict d), cursor.
  - destruct rest as [|x rest].
    + rewrite (step_more net self path attr kwargs params page cursor w Hcur Hne).
      apply IH. now left.
    + rewrite step_emit. rewrite IH; [reflexivity|].
      right. now exists rest, page, cursor.
Qed.

End Unending.

(** X19: the loop has no bound of its own: no page count, no check for a
    cursor met before.  Against a server whose every answer is a page
    that names a next page, going through the whole generator never
    comes to an end, however long it runs. *)
Theorem unending_cursor_never_finishes (net : Network) (self : Idr)
  (path page_data_attr : string) (params kwargs : dict) (w : World) :
  kwargs_free ["self"; "path"; "page_data_attr"; "params"] kwargs = true ->
  (forall params w, exists r w1 items cursor,
     get net self path (("params", PDict params) :: kwargs) w = (Ok r, w1)
     /\ is_page page_data_attr r items cursor /\ cursor <> PNone) ->
  exists g,
    get_paged self path page_data_attr params kwargs = Ok g
    /\ forall fuel, drain net fuel g w = None.
Proof.
  intros Hkw Hmore. eexists. split.
  - now apply get_paged_generator.
  - intros fuel. apply drain_unending; [exact Hmore|now left].
Qed.

(** A server stuck on one cursor. *)
Lemma stuck_server_names_next :
  forall (params : dict) (w : World), exists r w1 items cursor,
    get (always (page [cve "CVE-2021-0001"] (Some (PInt 1)))) client "cve-id"
        [("params", PDict params)] w = (Ok r, w1)
    /\ is_page "cve_ids" r items cursor /\ cursor <> PNone.
Proof.
  intros params w.
  exists (page [cve "CVE-2021-0001"] (Some (PInt 1))),
         (w ++ [list_request params]), [cve "CVE-2021-0001"], (PInt 1).
  split; [reflexivity|]. split; [|discriminate].
  eexists. repeat split; reflexivity.
Qed.

Lemma unending_cursor_never_finishes_witness :
  exists g,
    get_paged client "cve-id" "cve_ids" [] [] = Ok g
    /\ forall fuel,
         drain (always (page [cve "CVE-2021-0001"] (Some (PInt 1)))) fuel g [] = None.
Proof.
  exact (unending_cursor_never_finishes
           (always (page [cve "CVE-2021-0001"] (Some (PInt 1)))) client
           "cve-id" "cve_ids" [] [] [] eq_refl stuck_server_names_next).
Defined.
